(** * PRS_Automation: genotype conversion, score-script synthesis and the
      nine-stage pipeline orchestrator

    A shallow embedding of [individual_conversion.py], [prs_pipeline.py] and
    [prs_gui.py].  The Python code is effectful (files, [print], subprocesses,
    exceptions); it is modelled in a state-and-exception monad over an explicit
    [world] holding the file system, standard output and the list of
    subprocesses spawned so far. *)

From Stdlib Require Import ZArith Lia.
From stdpp Require Import base strings list gmap pretty.

Open Scope string_scope.

(** ** The fragment of the Python runtime the scripts rely on *)
Module Py.

Definition dq : string := String (Ascii.ascii_of_nat 34) EmptyString.
Definition nl : string := String (Ascii.ascii_of_nat 10) EmptyString.
Definition tab : string := String (Ascii.ascii_of_nat 9) EmptyString.
Definition tab_chr : Ascii.ascii := Ascii.ascii_of_nat 9.
Definition nl_chr : Ascii.ascii := Ascii.ascii_of_nat 10.
Definition slash_chr : Ascii.ascii := Ascii.ascii_of_nat 47.
Definition underscore_chr : Ascii.ascii := Ascii.ascii_of_nat 95.
Definition minus_chr : Ascii.ascii := Ascii.ascii_of_nat 45.
Definition plus_chr : Ascii.ascii := Ascii.ascii_of_nat 43.
Definition space_chr : Ascii.ascii := Ascii.ascii_of_nat 32.

(** [c in s] for a one-character [c]. *)
Fixpoint chr_in (c : Ascii.ascii) (s : string) : bool :=
  match s with
  | EmptyString => false
  | String a s' => Ascii.eqb a c || chr_in c s'
  end.

(** [sub in s]. *)
Fixpoint str_contains (sub s : string) : bool :=
  String.prefix sub s ||
  match s with
  | EmptyString => false
  | String _ s' => str_contains sub s'
  end.

(** [s.endswith(suf)]. *)
Fixpoint ends_with (suf s : string) : bool :=
  String.eqb s suf ||
  match s with
  | EmptyString => false
  | String _ s' => ends_with suf s'
  end.

(** [s.split(c)] for a one-character separator. *)
Fixpoint split_chr (c : Ascii.ascii) (s : string) : list string :=
  match s with
  | EmptyString => [EmptyString]
  | String a s' =>
      if Ascii.eqb a c then EmptyString :: split_chr c s'
      else match split_chr c s' with
           | [] => [String a EmptyString]
           | x :: xs => String a x :: xs
           end
  end.

(** [s.replace(old, new)] for a non-empty [old]: every non-overlapping
    occurrence, leftmost first.  [skip] counts the characters of a match
    that are still to be dropped. *)
Fixpoint replace_go (old new : string) (skip : nat) (s : string) : string :=
  match s with
  | EmptyString => EmptyString
  | String a s' =>
      match skip with
      | S k => replace_go old new k s'
      | O =>
          if String.prefix old s
          then new +:+ replace_go old new (String.length old - 1) s'
          else String a (replace_go old new 0 s')
      end
  end.

Definition str_replace (old new s : string) : string := replace_go old new 0 s.

(** The last character of a string, if any. *)
Fixpoint last_chr (s : string) : option Ascii.ascii :=
  match s with
  | EmptyString => None
  | String a s' => match s' with EmptyString => Some a | _ => last_chr s' end
  end.

(** [sep.join(parts)]. *)
Definition join (sep : string) (parts : list string) : string :=
  String.concat sep parts.

(** [os.path.join(a, b)] on POSIX. *)
Definition path_join (a b : string) : string :=
  if String.prefix "/" b then b
  else if String.eqb a EmptyString || ends_with "/" a then a +:+ b
  else a +:+ "/" +:+ b.

(** [os.path.basename(p)]: what follows the last slash. *)
Definition basename (p : string) : string :=
  List.last (split_chr slash_chr p) EmptyString.

(** [repr] of a list of strings, as [str(CalledProcessError)] shows the
    command (quotes inside the arguments are not escaped here). *)
Definition repr_list (l : list string) : string :=
  "[" +:+ join ", " (map (fun s => "'" +:+ s +:+ "'") l) +:+ "]".

(** *** Exceptions *)
Inductive exn : Type :=
| FileNotFoundError (msg : string)
| CalledProcessError (returncode : Z) (cmd : list string)
| KeyError (msg : string)
| ValueError (msg : string)
| OSError (msg : string)
| ParserError (msg : string)
| JSONDecodeError (msg : string).

(** [str(e)]. *)
Definition exn_str (e : exn) : string :=
  match e with
  | FileNotFoundError m | ValueError m | OSError m
  | ParserError m | JSONDecodeError m => m
  | KeyError m => "'" +:+ m +:+ "'"
  | CalledProcessError c cmd =>
      "Command '" +:+ repr_list cmd +:+ "' returned non-zero exit status "
      +:+ pretty c +:+ "."
  end.

Inductive res (A : Type) : Type :=
| Ok (a : A)
| Raise (e : exn).
Arguments Ok {A} a.
Arguments Raise {A} e.

(** *** The file system
    A flat table from path strings to nodes, kept in the order in which the
    operating system enumerates the entries.  Writing to an existing path
    updates it in place, a new path is appended.  Paths are compared as
    strings. *)
Inductive node : Type :=
| Dir
| File (content : string) (executable : bool).

Definition fsys : Type := list (string * node).

Fixpoint fs_lookup (p : string) (fs : fsys) : option node :=
  match fs with
  | [] => None
  | (q, n) :: fs' => if String.eqb q p then Some n else fs_lookup p fs'
  end.

Fixpoint fs_set (p : string) (n : node) (fs : fsys) : fsys :=
  match fs with
  | [] => [(p, n)]
  | (q, m) :: fs' =>
      if String.eqb q p then (q, n) :: fs' else (q, m) :: fs_set p n fs'
  end.

(** [os.path.exists(p)]. *)
Definition fs_exists (p : string) (fs : fsys) : bool :=
  match fs_lookup p fs with Some _ => true | None => false end.

(** [open(p, "w").write(c)]: creates or truncates; a new file is not
    executable, an existing one keeps its mode. *)
Definition fs_write (p c : string) (fs : fsys) : res fsys :=
  match fs_lookup p fs with
  | Some Dir => Raise (OSError ("[Errno 21] Is a directory: '" +:+ p +:+ "'"))
  | Some (File _ x) => Ok (fs_set p (File c x) fs)
  | None => Ok (fs_set p (File c false) fs)
  end.

(** [open(p, "r").read()]. *)
Definition fs_read (p : string) (fs : fsys) : res string :=
  match fs_lookup p fs with
  | Some (File c _) => Ok c
  | Some Dir => Raise (OSError ("[Errno 21] Is a directory: '" +:+ p +:+ "'"))
  | None =>
      Raise (FileNotFoundError
               ("[Errno 2] No such file or directory: '" +:+ p +:+ "'"))
  end.

(** [os.chmod(p, 0o755)]. *)
Definition fs_chmod_exec (p : string) (fs : fsys) : res fsys :=
  match fs_lookup p fs with
  | Some (File c _) => Ok (fs_set p (File c true) fs)
  | Some Dir => Ok fs
  | None =>
      Raise (FileNotFoundError
               ("[Errno 2] No such file or directory: '" +:+ p +:+ "'"))
  end.

(** [os.makedirs(p, exist_ok=True)]. *)
Definition fs_makedirs (p : string) (fs : fsys) : res fsys :=
  match fs_lookup p fs with
  | Some Dir => Ok fs
  | Some (File _ _) =>
      Raise (OSError ("[Errno 17] File exists: '" +:+ p +:+ "'"))
  | None => Ok (fs_set p Dir fs)
  end.

(** [shutil.copy(src, dst)]: content and mode; into [dst] when it is a
    directory; source and target must differ ([SameFileError]). *)
Definition fs_copy (src dst : string) (fs : fsys) : res fsys :=
  match fs_lookup src fs with
  | None =>
      Raise (FileNotFoundError
               ("[Errno 2] No such file or directory: '" +:+ src +:+ "'"))
  | Some Dir =>
      Raise (OSError ("[Errno 21] Is a directory: '" +:+ src +:+ "'"))
  | Some (File c x) =>
      let target :=
        match fs_lookup dst fs with
        | Some Dir => path_join dst (basename src)
        | _ => dst
        end in
      if String.eqb src target
      then Raise (OSError ("'" +:+ src +:+ "' and '" +:+ target
                           +:+ "' are the same file"))
      else
        match fs_lookup target fs with
        | Some Dir =>
            Raise (OSError ("[Errno 21] Is a directory: '" +:+ target +:+ "'"))
        | _ => Ok (fs_set target (File c x) fs)
        end
  end.

(** [glob.glob(os.path.join(d, "*" + ext))]: the entries directly inside [d]
    whose name ends in [ext] and does not start with a dot, in enumeration
    order.  [d] is taken literally (no glob metacharacters in it). *)
Definition dir_prefix (d : string) : string := path_join d EmptyString.

Fixpoint strip_prefix (p s : string) : option string :=
  match p, s with
  | EmptyString, _ => Some s
  | String a p', String b s' =>
      if Ascii.eqb a b then strip_prefix p' s' else None
  | String _ _, EmptyString => None
  end.

Definition glob_name_ok (ext name : string) : bool :=
  negb (chr_in slash_chr name) && negb (String.prefix "." name)
  && ends_with ext name.

Definition glob_match (d ext p : string) : bool :=
  match strip_prefix (dir_prefix d) p with
  | Some name => glob_name_ok ext name
  | None => false
  end.

Definition glob_ext (d ext : string) (fs : fsys) : list string :=
  List.filter (glob_match d ext) (map fst fs).

(** *** The world and the monad *)
Record call : Type := Call { call_cmd : list string; call_cwd : option string }.

(** [w_out] is standard output, line by line; [w_err] lists the exceptions
    whose traceback went to standard error; [w_calls] lists the subprocesses
    spawned, in order. *)
Record world : Type := World {
  w_fs : fsys;
  w_out : list string;
  w_err : list exn;
  w_calls : list call
}.

Definition M (A : Type) : Type := world -> res A * world.

Definition ret {A} (a : A) : M A := fun w => (Ok a, w).
Definition raise {A} (e : exn) : M A := fun w => (Raise e, w).
Definition bind {A B} (m : M A) (k : A -> M B) : M B :=
  fun w => match m w with
           | (Ok a, w') => k a w'
           | (Raise e, w') => (Raise e, w')
           end.
(** [try: m  except Exception as e: h e]. *)
Definition try_except {A} (m : M A) (h : exn -> M A) : M A :=
  fun w => match m w with
           | (Ok a, w') => (Ok a, w')
           | (Raise e, w') => h e w'
           end.

Declare Scope py_scope.
Notation "x ← y ; z" := (bind y (fun x => z))
  (at level 20, y at level 100, z at level 200, only parsing) : py_scope.
Notation "y ;; z" := (bind y (fun _ => z))
  (at level 100, z at level 200, only parsing, right associativity) : py_scope.
Open Scope py_scope.

Definition get_fs : M fsys := fun w => (Ok (w_fs w), w).
Definition put_fs (fs : fsys) : M unit :=
  fun w => (Ok tt, World fs (w_out w) (w_err w) (w_calls w)).
Definition print (s : string) : M unit :=
  fun w => (Ok tt, World (w_fs w) (w_out w ++ [s]) (w_err w) (w_calls w)).
(** [traceback.print_exc()]. *)
Definition print_exc (e : exn) : M unit :=
  fun w => (Ok tt, World (w_fs w) (w_out w) (w_err w ++ [e]) (w_calls w)).
Definition log_call (c : call) : M unit :=
  fun w => (Ok tt, World (w_fs w) (w_out w) (w_err w) (w_calls w ++ [c])).

Definition lift_fs (f : fsys -> res fsys) : M unit :=
  fs ← get_fs;
  match f fs with
  | Ok fs' => put_fs fs'
  | Raise e => raise e
  end.

Definition path_exists (p : string) : M bool :=
  fs ← get_fs; ret (fs_exists p fs).
Definition write_file (p c : string) : M unit := lift_fs (fs_write p c).
Definition read_file (p : string) : M string :=
  fs ← get_fs;
  match fs_read p fs with Ok c => ret c | Raise e => raise e end.
Definition chmod_exec (p : string) : M unit := lift_fs (fs_chmod_exec p).
Definition makedirs (p : string) : M unit := lift_fs (fs_makedirs p).
Definition glob (d ext : string) : M (list string) :=
  fs ← get_fs; ret (glob_ext d ext fs).

(** *** The environment outside the scripts
    What a spawned program does, what [json.load] makes of the configuration
    file and what [pandas.read_csv] makes of a table are not part of the
    repository; they are taken as given. *)
Inductive proc_result : Type :=
| Exited (returncode : Z) (fs' : fsys)
| SpawnError (e : exn).

(** One cell of a [DataFrame]: missing, numeric (integral) or text. *)
Inductive cell : Type :=
| NaN
| Num (z : Z)
| Text (s : string).

Record DataFrame : Type := {
  columns : list string;
  rows : list (list cell)
}.

(** One line of the variant-metadata table. *)
Record VariantRecord : Type := {
  v_chr : string; v_rsid : string; v_cm : string;
  v_pos : string; v_a1 : string; v_a2 : string
}.

Record env : Type := {
  env_home : string;
  env_cwd : string;
  env_uid : Z;
  env_gid : Z;
  env_tool : list string -> option string -> fsys -> proc_result;
  env_json_load : string -> res (gmap string string);
  env_read_table : string -> res DataFrame;
  env_read_bim : string -> res (list VariantRecord)
}.

(** Errors inside pure code. *)
Definition res_bind {A B} (r : res A) (k : A -> res B) : res B :=
  match r with Ok a => k a | Raise e => Raise e end.

Fixpoint res_map {A B} (f : A -> res B) (l : list A) : res (list B) :=
  match l with
  | [] => Ok []
  | x :: l' =>
      res_bind (f x) (fun y => res_bind (res_map f l') (fun ys => Ok (y :: ys)))
  end.

Definition res_default {A} (d : A) (r : res A) : A :=
  match r with Ok a => a | Raise _ => d end.

Definition lift_res {A} (r : res A) : M A :=
  match r with Ok a => ret a | Raise e => raise e end.

(** [for x in l: body x]. *)
Fixpoint for_each {A} (l : list A) (body : A -> M unit) : M unit :=
  match l with
  | [] => ret tt
  | x :: l' => body x;; for_each l' body
  end.

(** [x in l] for strings. *)
Definition str_mem (x : string) (l : list string) : bool :=
  existsb (String.eqb x) l.

End Py.

(** ** individual_conversion.py *)
Module IndividualConversion.
Import Py.

Definition raw_file : string := "individual_1.raw".
(** The placeholder the orchestrator patches in its copy of the script. *)
Definition bim_file : string := "HT.bim".
Definition output_file : string := "individual_genotypes2.input".
Definition summary_file : string := "conversion_summary.txt".

Definition sample_cols : list string :=
  ["FID"; "IID"; "PAT"; "MAT"; "SEX"; "PHENOTYPE"].

(** [pd.isna(c)]. *)
Definition isna (c : cell) : bool :=
  match c with NaN => true | _ => false end.

Definition digit_of (a : Ascii.ascii) : option Z :=
  let n := Ascii.nat_of_ascii a in
  if (48 <=? n)%nat && (n <=? 57)%nat then Some (Z.of_nat (n - 48)) else None.

Fixpoint digits_go (acc : Z) (s : string) : option Z :=
  match s with
  | EmptyString => Some acc
  | String a s' =>
      match digit_of a with
      | Some d => digits_go (10 * acc + d) s'
      | None => None
      end
  end.

(** [int(s)] on a string: an optional sign and decimal digits (surrounding
    blanks and digit-group underscores are left out). *)
Definition int_of_str (s : string) : option Z :=
  match s with
  | EmptyString => None
  | String a t =>
      if Ascii.eqb a minus_chr then
        match t with EmptyString => None | _ => Z.opp <$> digits_go 0 t end
      else if Ascii.eqb a plus_chr then
        match t with EmptyString => None | _ => digits_go 0 t end
      else digits_go 0 s
  end.

(** [int(c)]. *)
Definition py_int (c : cell) : res Z :=
  match c with
  | Num z => Ok z
  | NaN => Raise (ValueError "cannot convert float NaN to integer")
  | Text s =>
      match int_of_str s with
      | Some z => Ok z
      | None =>
          Raise (ValueError
                   ("invalid literal for int() with base 10: '" +:+ s +:+ "'"))
      end
  end.

(** [str(c)], also what an f-string shows. *)
Definition cell_str (c : cell) : string :=
  match c with
  | NaN => "nan"
  | Num z => pretty z
  | Text s => s
  end.

(** The body of the inner loop: one genotype cell to its output text. *)
Definition genotype_str (c : cell) : res string :=
  if isna c then Ok "NA"
  else res_bind (py_int c) (fun z => Ok (pretty z)).

Fixpoint index_of (x : string) (l : list string) : option nat :=
  match l with
  | [] => None
  | y :: l' => if String.eqb y x then Some O else S <$> index_of x l'
  end.

(** [row[col]]; a short line was padded with missing values by the reader. *)
Definition row_get (df : DataFrame) (row : list cell) (col : string) : res cell :=
  match index_of col (columns df) with
  | Some i => Ok (nth i row NaN)
  | None => Raise (KeyError col)
  end.

(** [raw_data[cols]] raises when a name is not a column. *)
Definition select_columns (df : DataFrame) (cols : list string) : res unit :=
  match List.filter (fun c => negb (str_mem c (columns df))) cols with
  | [] => Ok tt
  | missing => Raise (KeyError (repr_list missing +:+ " not in index"))
  end.

Definition genotype_cols_of (df : DataFrame) : list string :=
  List.filter (fun col => negb (str_mem col sample_cols)) (columns df).

(** The header loop of the branch taken when the metadata was read. *)
Definition header_step (header_parts : list string) (col : string) : list string :=
  if chr_in underscore_chr col then
    let parts := split_chr underscore_chr col in
    if (2 <=? length parts)%nat then header_parts ++ [col] else header_parts
  else header_parts ++ [col].

Definition header_parts_of (bim_present : bool) (genotype_cols : list string)
  : list string :=
  if bim_present then fold_left header_step genotype_cols ["IID"]
  else "IID" :: genotype_cols.

(** One pass of the sample loop. *)
Definition row_line (df : DataFrame) (genotype_cols : list string)
    (row : list cell) : res string :=
  res_bind (row_get df row "IID") (fun sample_id =>
  res_bind (res_map (fun col => res_bind (row_get df row col) genotype_str)
                    genotype_cols) (fun genotypes =>
  Ok (cell_str sample_id +:+ tab +:+ join tab genotypes))).

Definition output_lines_of (df : DataFrame) (bim_present : bool) : res (list string) :=
  let genotype_cols := genotype_cols_of df in
  res_bind (res_map (row_line df genotype_cols) (rows df)) (fun body =>
  Ok (join tab (header_parts_of bim_present genotype_cols) :: body)).

Definition shape_str (n k : nat) : string :=
  "(" +:+ pretty n +:+ ", " +:+ pretty k +:+ ")".

(** [bim_data['rsid'].astype(str) + '_' + bim_data['a1'].astype(str)]. *)
Definition var_id (v : VariantRecord) : string := v_rsid v +:+ "_" +:+ v_a1 v.

Section WithEnv.
Variable E : env.

Definition read_table (p : string) : M DataFrame :=
  c ← read_file p; lift_res (env_read_table E c).

Definition read_bim (p : string) : M (list VariantRecord) :=
  c ← read_file p; lift_res (env_read_bim E c).

(** The metadata block: [None] when the file is absent. *)
Definition load_bim : M (option (list (VariantRecord * string))) :=
  bex ← path_exists bim_file;
  if bex
  then bim ← read_bim bim_file;
       print ("BIM data shape: " +:+ shape_str (length bim) 6);;
       ret (Some (map (fun v => (v, var_id v)) bim))
  else print ("Warning: BIM file not found: " +:+ bim_file);;
       ret None.

Definition convert_body : M bool :=
  ex ← path_exists raw_file;
  (if negb ex
   then raise (FileNotFoundError ("Raw file not found: " +:+ raw_file))
   else ret tt : M unit);;
  raw_data ← read_table raw_file;
  print ("Raw data shape: "
         +:+ shape_str (length (rows raw_data)) (length (columns raw_data)));;
  lift_res (select_columns raw_data sample_cols);;
  let genotype_cols := genotype_cols_of raw_data in
  print ("Found " +:+ pretty (length genotype_cols) +:+ " variants");;
  bim_data ← load_bim;
  output_lines ← lift_res (output_lines_of raw_data (bool_decide (is_Some bim_data)));
  write_file output_file (join nl output_lines);;
  print "Conversion completed successfully!";;
  print ("Output written to: " +:+ output_file);;
  print ("Total samples: " +:+ pretty (length (rows raw_data)));;
  print ("Total variants: " +:+ pretty (length genotype_cols));;
  iids ← lift_res (res_map (fun row => row_get raw_data row "IID") (rows raw_data));
  write_file summary_file
    ("Conversion Summary" +:+ nl +:+
     "==================" +:+ nl +:+
     "Input raw file: " +:+ raw_file +:+ nl +:+
     "Input BIM file: " +:+ bim_file +:+ nl +:+
     "Output file: " +:+ output_file +:+ nl +:+
     "Total samples: " +:+ pretty (length (rows raw_data)) +:+ nl +:+
     "Total variants: " +:+ pretty (length genotype_cols) +:+ nl +:+
     "Sample IDs: " +:+ join ", " (map cell_str iids) +:+ nl);;
  ret true.

Definition convert_genotypes : M bool :=
  print ("Reading raw file: " +:+ raw_file);;
  print ("Reading BIM file: " +:+ bim_file);;
  try_except convert_body
    (fun e => print ("Error during conversion: " +:+ exn_str e);;
              print_exc e;;
              ret false).



End WithEnv.

(** A small reader for whitespace-delimited tables, enough to run the
    converter on concrete files: [NA] is missing, a decimal literal is a
    number, anything else is text. *)
Definition is_blank (a : Ascii.ascii) : bool :=
  Ascii.eqb a space_chr || Ascii.eqb a tab_chr.

Fixpoint words_go (cur : string) (s : string) : list string :=
  match s with
  | EmptyString => if String.eqb cur EmptyString then [] else [String.rev cur]
  | String a s' =>
      if is_blank a
      then (if String.eqb cur EmptyString then words_go EmptyString s'
            else String.rev cur :: words_go EmptyString s')
      else words_go (String a cur) s'
  end.

Definition words (s : string) : list string := words_go EmptyString s.

Definition parse_cell (s : string) : cell :=
  if String.eqb s "NA" then NaN
  else match int_of_str s with Some z => Num z | None => Text s end.

Definition simple_read_table (content : string) : res DataFrame :=
  match List.filter (fun l => negb (String.eqb l EmptyString))
                    (split_chr nl_chr content) with
  | [] => Raise (ParserError "No columns to parse from file")
  | h :: ls =>
      Ok {| columns := words h; rows := map (fun l => map parse_cell (words l)) ls |}
  end.

Definition simple_read_bim (content : string) : res (list VariantRecord) :=
  match List.filter (fun l => negb (String.eqb l EmptyString))
                    (split_chr nl_chr content) with
  | [] => Raise (ParserError "No columns to parse from file")
  | ls =>
      Ok (map (fun l =>
                 let f := split_chr tab_chr l in
                 {| v_chr := nth 0 f EmptyString; v_rsid := nth 1 f EmptyString;
                    v_cm := nth 2 f EmptyString; v_pos := nth 3 f EmptyString;
                    v_a1 := nth 4 f EmptyString; v_a2 := nth 5 f EmptyString |}) ls)
  end.

End IndividualConversion.

(** ** What [prs_pipeline.py] and [prs_gui.py] share
    The configuration constants and the helpers [run] and [safe_copy] are
    the same text in both files.  The statements at module level (writing a
    default configuration file when there is none and, in [prs_gui.py],
    creating the base directories) have run before [run_pipeline_cli] is
    called; a [world] given to it is any state they can leave. *)
Module Orchestration.
Import Py.

(** How a run of [run_pipeline_cli] ended.  The Python function returns
    [None] on every path; the value records which path was taken: the early
    [return] on unusable arguments, the end of the guarded block, or one of
    its [except] clauses. *)
Inductive outcome : Type :=
| Rejected
| Completed
| Failed (cause : exn).

(** [not s] for an optional string argument. *)
Definition falsy (s : option string) : bool :=
  match s with
  | None => true
  | Some t => String.eqb t EmptyString
  end.

Definition lines (l : list string) : string :=
  String.concat EmptyString (map (fun x => x +:+ nl) l).

Section WithEnv.
Variable E : env.

(** [env_home] is [$HOME] without trailing slashes, as [expanduser] uses it. *)
Definition CONFIG_FILE : string := env_home E +:+ "/.prs_pipeline_config.json".
Definition HOME_DIR : string :=
  if String.eqb (env_home E) EmptyString then "/" else env_home E.
Definition BASE_DIR : string := path_join (path_join HOME_DIR "Desktop") "PRS_New".

Definition run (cmd : list string) (cwd : option string) : M unit :=
  print (nl +:+ ">>> RUN: " +:+ join " " cmd);;
  log_call (Call cmd cwd);;
  fs ← get_fs;
  match env_tool E cmd cwd fs with
  | Exited c fs' =>
      put_fs fs';;
      if (c =? 0)%Z then ret tt else raise (CalledProcessError c cmd)
  | SpawnError e => raise e
  end.

Definition safe_copy (src dst : string) : M unit :=
  lift_fs (fs_copy src dst);;
  print ("Copied: " +:+ src +:+ " -> " +:+ dst).

(** The configuration block at the top of [run_pipeline_cli]: any failure
    to load leaves the empty dictionary. *)
Definition load_cfg : M (gmap string string) :=
  ex ← path_exists CONFIG_FILE;
  if ex
  then try_except (c ← read_file CONFIG_FILE; lift_res (env_json_load E c))
                  (fun _ => ret ∅)
  else ret ∅.

(** The three [except] clauses that close the guarded block. *)
Definition handlers (e : exn) : M outcome :=
  match e with
  | CalledProcessError _ _ =>
      print ("Hata (alt süreç başarısız): " +:+ exn_str e)
  | FileNotFoundError _ =>
      print ("Hata (dosya bulunamadı): " +:+ exn_str e)
  | _ => print ("Beklenmeyen hata: " +:+ exn_str e)
  end;;
  ret (Failed e).

(** The commands of the stages both files run with the same arguments. *)
Definition import_cmd (plink_bin vcf out_prefix : string) : list string :=
  [plink_bin; "--vcf"; vcf; "--make-bed"; "--set-missing-var-ids"; "@:#:$1:$2";
   "--out"; out_prefix; "--allow-extra-chr"].

Definition normalize_cmd (plink2_bin out_prefix out_prefix_id : string) : list string :=
  [plink2_bin; "--bfile"; out_prefix; "--set-all-var-ids"; "chr@:#:$r:$a";
   "--make-bed"; "--out"; out_prefix_id; "--rm-dup"; "list";
   "--new-id-max-allele-len"; "10000"].

Definition score_cmd (ett_score_script out_prefix_id prs_dir : string) : list string :=
  ["bash"; ett_score_script; out_prefix_id; prs_dir].

Definition recode_cmd (plink_bin out_prefix_id vcf_dir : string) : list string :=
  [plink_bin; "--bfile"; out_prefix_id; "--recode"; "A";
   "--out"; path_join vcf_dir "individual_1"; "--allow-extra-chr"].

Definition convert_cmd : list string := ["python3"; "individual_conversion.py"].

Definition docker_cmd : string :=
  "cd iAdmix && " +:+
  "sed '1!s/^chr//' ../individual_genotypes2.input > ../individual_genotypes2_nochr.input && " +:+
  "./runancestry.py --freq ../pop_all_ref_final2.input --geno ../individual_genotypes2_nochr.input " +:+
  "--out ../sample2.ancestry -c 4 --strand 1 --pr 0".

Definition ancestry_cmd (docker_bin ancestry_dir image : string) : list string :=
  [docker_bin; "run"; "--ulimit"; "core=-1"; "--rm";
   "--user"; pretty (env_uid E) +:+ ":" +:+ pretty (env_gid E);
   "-v"; ancestry_dir +:+ ":/app";
   "-w"; "/app";
   image;
   "bash"; "-lc"; docker_cmd].

Definition parse_cmd : list string := ["python"; "ancestry_data_parse.py"].
Definition report_cmd : list string := ["bash"; "report_all_aut.sh"].

Definition vcf_dir_of (sample_id : string) : string :=
  path_join (path_join BASE_DIR "VCF_Files") sample_id.
Definition prs_dir_of (sample_id : string) : string :=
  path_join (path_join BASE_DIR "PRS_Files") sample_id.
Definition ancestry_dir : string := path_join BASE_DIR "Ancestry".
Definition prs_scripts_dir : string := path_join BASE_DIR "PRS".
Definition prs_files_dir : string := path_join BASE_DIR "PRS_Files".
Definition ancestry_parse_script : string :=
  path_join prs_scripts_dir "ancestry_data_parse.py".
Definition report_script : string := path_join prs_scripts_dir "report_all_aut.sh".
Definition conversion_template : string :=
  path_join (path_join BASE_DIR "VCF_Files") "individual_conversion.py".
Definition out_prefix_of (sample_id : string) : string :=
  path_join (vcf_dir_of sample_id) sample_id.
Definition out_prefix_id_of (sample_id : string) : string :=
  path_join (vcf_dir_of sample_id) (sample_id +:+ "_id").
Definition bim_file_of (sample_id : string) : string :=
  path_join (vcf_dir_of sample_id) (sample_id +:+ "_id.bim").
Definition local_geno_of (sample_id : string) : string :=
  path_join (vcf_dir_of sample_id) "individual_genotypes2.input".
Definition ancestry_geno : string :=
  path_join ancestry_dir "individual_genotypes2.input".

(** Stages 0 to 2 and 4, 8 and 9 are the same statements in both files. *)
Definition step0_validate (vcf : string) : M unit :=
  ex ← path_exists vcf;
  if negb ex then raise (FileNotFoundError ("VCF file not found: " +:+ vcf))
  else ret tt.

Definition step1_import (plink_bin vcf sample_id : string) : M unit :=
  run (import_cmd plink_bin vcf (out_prefix_of sample_id)) None.

Definition step2_normalize (plink2_bin sample_id : string) : M unit :=
  run (normalize_cmd plink2_bin (out_prefix_of sample_id)
         (out_prefix_id_of sample_id)) None.

Definition step4_recode (plink_bin sample_id : string) : M unit :=
  run (recode_cmd plink_bin (out_prefix_id_of sample_id) (vcf_dir_of sample_id))
      None.

Definition step8_parse : M unit :=
  ex ← path_exists ancestry_parse_script;
  if ex then run parse_cmd (Some prs_scripts_dir)
  else print "⚠ ancestry_data_parse.py not found, skipping.".

Definition step9_report : M unit :=
  ex ← path_exists report_script;
  if ex then chmod_exec report_script;; run report_cmd (Some prs_scripts_dir)
  else print "⚠ report_all_aut.sh not found, skipping report.".

(** The status of the process when the script is started with command-line
    arguments: [run_pipeline_cli] is the last statement, so the interpreter
    exits with 0 when it returns and with 1 when an exception escapes it. *)
Definition exit_status {A} (r : res A * world) : Z :=
  match fst r with
  | Ok _ => 0
  | Raise _ => 1
  end.

End WithEnv.
End Orchestration.

(** ** prs_pipeline.py *)
Module PrsPipeline.
Import Py Orchestration.

Section WithEnv.
Variable E : env.

Definition ett_score_script : string := path_join (prs_files_dir E) "ETT_score_2.sh".

Definition step3_score (sample_id : string) : M unit :=
  ex ← path_exists ett_score_script;
  (if negb ex
   then raise (FileNotFoundError ("ETT_score_2.sh not found at " +:+ ett_score_script))
   else ret tt : M unit);;
  chmod_exec ett_score_script;;
  run E (score_cmd ett_score_script (out_prefix_id_of E sample_id)
           (prs_dir_of E sample_id)) None.

(** Stage 5, first part: the installed script is required; its copy for
    this sample names the sample's metadata file. *)
Definition patch_conversion_script (sample_id : string) : M unit :=
  ex ← path_exists (conversion_template E);
  (if negb ex
   then raise (FileNotFoundError
                 ("individual_conversion.py not found at " +:+ conversion_template E))
   else ret tt : M unit);;
  let bim_file := bim_file_of E sample_id in
  content ← read_file (conversion_template E);
  let content :=
    str_replace (dq +:+ "HT.bim" +:+ dq) (dq +:+ bim_file +:+ dq) content in
  let conversion_dest := path_join (vcf_dir_of E sample_id) "individual_conversion.py" in
  write_file conversion_dest content;;
  print ("Patched individual_conversion.py to use BIM: " +:+ bim_file).

(** Stage 5, last part: the conversion output is required. *)
Definition check_local_geno (sample_id : string) : M unit :=
  let local_geno := local_geno_of E sample_id in
  gex ← path_exists local_geno;
  if negb gex
  then raise (FileNotFoundError ("Conversion did not produce " +:+ local_geno))
  else ret tt.

Definition step5_convert (sample_id : string) : M unit :=
  patch_conversion_script sample_id;;
  run E convert_cmd (Some (vcf_dir_of E sample_id));;
  check_local_geno sample_id.

Definition step6_handoff (sample_id : string) : M unit :=
  safe_copy (local_geno_of E sample_id) (ancestry_geno E).

Definition step7_ancestry (docker_bin : string) : M unit :=
  run E (ancestry_cmd E docker_bin (ancestry_dir E) "ancestry-py27") None.

(** The guarded block of [run_pipeline_cli]. *)
Definition pipeline_body (vcf sample_id plink_bin plink2_bin docker_bin : string)
  : M unit :=
  step0_validate vcf;;
  print ("Using plink: " +:+ plink_bin +:+ ", plink2: " +:+ plink2_bin
         +:+ ", docker: " +:+ docker_bin);;
  step1_import E plink_bin vcf sample_id;;
  step2_normalize E plink2_bin sample_id;;
  step3_score sample_id;;
  step4_recode E plink_bin sample_id;;
  step5_convert sample_id;;
  step6_handoff sample_id;;
  step7_ancestry docker_bin;;
  step8_parse E;;
  step9_report E;;
  print (nl +:+ "✅ Pipeline başarıyla tamamlandı. PRS output dir: "
         +:+ prs_dir_of E sample_id).

(** The directories created before the guarded block. *)
Definition file_structure (sample_id : string) : M unit :=
  makedirs (vcf_dir_of E sample_id);;
  makedirs (prs_dir_of E sample_id);;
  makedirs (ancestry_dir E).

Definition run_pipeline_cli (vcf sample_id phenotype sex age : option string)
  : M outcome :=
  cfg ← load_cfg E;
  let plink_bin := default "plink" (cfg !! "plink") in
  let plink2_bin := default "plink2" (cfg !! "plink2") in
  let docker_bin := default "docker" (cfg !! "docker") in
  if falsy vcf || falsy sample_id
  then print "VCF ve Kişi ID gerekli.";; ret Rejected
  else
    let vcf := default EmptyString vcf in
    let sample_id := default EmptyString sample_id in
    print ("Pipeline başlıyor... " +:+ sample_id);;
    file_structure sample_id;;
    try_except
      (pipeline_body vcf sample_id plink_bin plink2_bin docker_bin;; ret Completed)
      (handlers).

(** The script started with arguments [--vcf], [--id], ...: its exit status. *)
Definition main_cli (vcf sample_id phenotype sex age : option string)
    (w : world) : Z :=
  exit_status (run_pipeline_cli vcf sample_id phenotype sex age w).

End WithEnv.
End PrsPipeline.

(** ** prs_gui.py *)
Module PrsGui.
Import Py Orchestration.

(** [par_name.replace('.par', '')]. *)
Definition output_name_of (par_file : string) : string :=
  str_replace ".par" EmptyString (basename par_file).

(** The scoring invocation written for one model file. *)
Definition score_command (plink2_bin par_file : string) : string :=
  plink2_bin +:+ " --bfile " +:+ dq +:+ "$INPUT_PREFIX" +:+ dq
  +:+ " --out " +:+ dq +:+ "$OUTPUT_DIR/" +:+ output_name_of par_file +:+ dq
  +:+ " --score " +:+ dq +:+ "$PRS_SCORE_DIR/" +:+ basename par_file +:+ dq
  +:+ " 1 2 4 header cols=+scoresums no-mean-imputation".

Definition script_head (prs_score_dir : string) : string :=
  lines [
    "#!/bin/bash";
    EmptyString;
    "# ETT Score Script - Generated dynamically";
    "# Usage: ./ETT_score_2.sh <input_prefix> <output_dir>";
    EmptyString;
    "INPUT_PREFIX=$1";
    "OUTPUT_DIR=$2";
    "PRS_SCORE_DIR=" +:+ dq +:+ prs_score_dir +:+ dq;
    EmptyString;
    "if [ -z " +:+ dq +:+ "$INPUT_PREFIX" +:+ dq +:+ " ] || [ -z " +:+ dq
      +:+ "$OUTPUT_DIR" +:+ dq +:+ " ]; then";
    "    echo " +:+ dq +:+ "Usage: $0 <input_prefix> <output_dir>" +:+ dq;
    "    exit 1";
    "fi";
    EmptyString;
    "# Create output directory if it doesn't exist";
    "mkdir -p " +:+ dq +:+ "$OUTPUT_DIR" +:+ dq;
    EmptyString;
    "# Process each score file";
    "echo " +:+ dq +:+ "Processing PRS scores for $INPUT_PREFIX..." +:+ dq;
    EmptyString ].

(** What one pass of the loop appends to the script. *)
Definition script_block (plink2_bin par_file : string) : string :=
  let output_name := output_name_of par_file in
  lines [
    EmptyString;
    "echo " +:+ dq +:+ "Processing " +:+ output_name +:+ "..." +:+ dq;
    score_command plink2_bin par_file;
    "if [ $? -eq 0 ]; then";
    "    echo " +:+ dq +:+ "✓ " +:+ output_name +:+ " completed" +:+ dq;
    "else";
    "    echo " +:+ dq +:+ "✗ " +:+ output_name +:+ " failed" +:+ dq;
    "fi" ].

Definition script_tail : string :=
  lines [
    EmptyString;
    "echo " +:+ dq +:+ "All PRS scores processed!" +:+ dq;
    "echo " +:+ dq +:+ "Results saved in: $OUTPUT_DIR" +:+ dq ].

(** [script_content] as the function builds it: the head, one block per
    model file appended in a loop, the tail. *)
Definition script_text (prs_score_dir plink2_bin : string)
    (par_files : list string) : string :=
  fold_left (fun script_content par_file =>
               script_content +:+ script_block plink2_bin par_file)
            par_files (script_head prs_score_dir)
  +:+ script_tail.

(** The stub written when no conversion script is installed. *)
Definition conversion_stub (bim_file : string) : string :=
  lines [
    "#!/usr/bin/env python3";
    "import pandas as pd";
    "import numpy as np";
    EmptyString;
    "# Read the recoded data";
    "raw_file = " +:+ dq +:+ "individual_1.raw" +:+ dq;
    "bim_file = " +:+ dq +:+ bim_file +:+ dq;
    EmptyString;
    "# Read raw file";
    "data = pd.read_csv(raw_file, sep=r'\s+')";
    EmptyString;
    "# Read bim file for variant info";
    "bim = pd.read_csv(bim_file, sep='\t', header=None, names=['chr', 'rsid', 'cm', 'pos', 'a1', 'a2'])";
    EmptyString;
    "# Process and save";
    "output_file = " +:+ dq +:+ "individual_genotypes2.input" +:+ dq;
    "# Add your conversion logic here";
    "print(f" +:+ dq +:+ "Conversion completed: {output_file}" +:+ dq +:+ ")" ].

Definition placeholder_text : string := "# Placeholder genotype file" +:+ nl.

Section WithEnv.
Variable E : env.

Definition script_path : string := path_join (prs_files_dir E) "ETT_score_2.sh".

(** The configuration read inside [create_ett_score_script]: a file that
    does not load raises. *)
Definition read_cfg : M (gmap string string) :=
  ex ← path_exists (CONFIG_FILE E);
  if ex then c ← read_file (CONFIG_FILE E); lift_res (env_json_load E c)
  else ret ∅.

Definition create_ett_score_script (prs_score_dir sample_id : string) : M string :=
  par_files ← glob prs_score_dir ".par";
  (match par_files with
   | [] => raise (FileNotFoundError ("No .par files found in " +:+ prs_score_dir))
   | _ => ret tt
   end : M unit);;
  cfg ← read_cfg;
  let plink2_bin := default "plink2" (cfg !! "plink2") in
  let script_content := script_text prs_score_dir plink2_bin par_files in
  write_file script_path script_content;;
  chmod_exec script_path;;
  print ("Created ETT_score_2.sh at " +:+ script_path);;
  ret script_path.

Definition step3_score (prs_score_dir sample_id : string) : M unit :=
  ett_score_script ← create_ett_score_script prs_score_dir sample_id;
  run E (score_cmd ett_score_script (out_prefix_id_of E sample_id)
           (prs_dir_of E sample_id)) None.

(** Stage 5, first part: a stub is installed when no conversion script is;
    the copy for this sample names the sample's metadata file. *)
Definition patch_conversion_script (sample_id : string) : M unit :=
  ex ← path_exists (conversion_template E);
  (if negb ex
   then write_file (conversion_template E)
          (conversion_stub (bim_file_of E sample_id));;
        chmod_exec (conversion_template E)
   else ret tt : M unit);;
  let bim_file := bim_file_of E sample_id in
  content ← read_file (conversion_template E);
  let content :=
    if str_contains (dq +:+ "HT.bim" +:+ dq) content
    then str_replace (dq +:+ "HT.bim" +:+ dq) (dq +:+ bim_file +:+ dq) content
    else content in
  let conversion_dest := path_join (vcf_dir_of E sample_id) "individual_conversion.py" in
  write_file conversion_dest content;;
  print ("Patched individual_conversion.py to use BIM: " +:+ bim_file).

(** Stage 5, last part: a missing conversion output is replaced by a
    placeholder. *)
Definition ensure_local_geno (sample_id : string) : M unit :=
  let local_geno := local_geno_of E sample_id in
  gex ← path_exists local_geno;
  if negb gex
  then print "Warning: Conversion did not produce expected file, creating placeholder";;
       write_file local_geno placeholder_text
  else ret tt.

Definition step5_convert (sample_id : string) : M unit :=
  patch_conversion_script sample_id;;
  run E convert_cmd (Some (vcf_dir_of E sample_id));;
  ensure_local_geno sample_id.

Definition step6_handoff (sample_id : string) : M unit :=
  safe_copy (local_geno_of E sample_id) (ancestry_geno E).

Definition step7_ancestry (docker_bin : string) : M unit :=
  try_except
    (run E (ancestry_cmd E docker_bin (ancestry_dir E) "python") None)
    (fun e =>
       print ("⚠ Docker ancestry step skipped (docker not available or image missing): "
              +:+ exn_str e)).

(** The listing of score files that closes the guarded block. *)
Definition list_scores (sample_id : string) : M unit :=
  score_files ← glob (prs_dir_of E sample_id) ".sscore";
  match score_files with
  | [] => ret tt
  | _ =>
      print (nl +:+ "Generated " +:+ pretty (length score_files) +:+ " score files:");;
      for_each (take 5 score_files) (fun sf => print ("  - " +:+ basename sf));;
      if (5 <? length score_files)%nat
      then print ("  ... and " +:+ pretty (length score_files - 5)%nat +:+ " more")
      else ret tt
  end.

(** Stages 0 to 6: everything up to the hand-off to the ancestry estimator. *)
Definition required_stages
    (vcf sample_id prs_score_dir plink_bin plink2_bin docker_bin : string) : M unit :=
  step0_validate vcf;;
  print ("Using plink: " +:+ plink_bin +:+ ", plink2: " +:+ plink2_bin
         +:+ ", docker: " +:+ docker_bin);;
  step1_import E plink_bin vcf sample_id;;
  step2_normalize E plink2_bin sample_id;;
  step3_score prs_score_dir sample_id;;
  step4_recode E plink_bin sample_id;;
  step5_convert sample_id;;
  step6_handoff sample_id.

(** Stages 8 and 9 and the closing messages. *)
Definition closing_stages (sample_id : string) : M unit :=
  step8_parse E;;
  step9_report E;;
  print (nl +:+ "✅ Pipeline başarıyla tamamlandı. PRS output dir: "
         +:+ prs_dir_of E sample_id);;
  list_scores sample_id.

(** The guarded block of [run_pipeline_cli]. *)
Definition pipeline_body
    (vcf sample_id prs_score_dir plink_bin plink2_bin docker_bin : string) : M unit :=
  required_stages vcf sample_id prs_score_dir plink_bin plink2_bin docker_bin;;
  step7_ancestry docker_bin;;
  closing_stages sample_id.

(** The directories created before the guarded block. *)
Definition file_structure (sample_id : string) : M unit :=
  makedirs (vcf_dir_of E sample_id);;
  makedirs (prs_dir_of E sample_id);;
  makedirs (ancestry_dir E);;
  makedirs (prs_scripts_dir E);;
  makedirs (prs_files_dir E).

Definition run_pipeline_cli
    (vcf sample_id phenotype sex age prs_score_dir : option string) : M outcome :=
  cfg ← load_cfg E;
  let plink_bin := default "plink" (cfg !! "plink") in
  let plink2_bin := default "plink2" (cfg !! "plink2") in
  let docker_bin := default "docker" (cfg !! "docker") in
  let prs_score_dir :=
    if falsy prs_score_dir then default EmptyString (cfg !! "prs_score_dir")
    else default EmptyString prs_score_dir in
  if falsy vcf || falsy sample_id
  then print "VCF ve Kişi ID gerekli.";; ret Rejected
  else
    dex ← path_exists prs_score_dir;
    if String.eqb prs_score_dir EmptyString || negb dex
    then print ("PRS score directory not found or not specified: " +:+ prs_score_dir);;
         ret Rejected
    else
      let vcf := default EmptyString vcf in
      let sample_id := default EmptyString sample_id in
      print ("Pipeline başlıyor... " +:+ sample_id);;
      print ("Using PRS score directory: " +:+ prs_score_dir);;
      file_structure sample_id;;
      try_except
        (pipeline_body vcf sample_id prs_score_dir plink_bin plink2_bin docker_bin;;
         ret Completed)
        (handlers).

Definition main_cli
    (vcf sample_id phenotype sex age prs_score_dir : option string)
    (w : world) : Z :=
  exit_status (run_pipeline_cli vcf sample_id phenotype sex age prs_score_dir w).

End WithEnv.
End PrsGui.

(** ** Well-formed allele-count tables *)
Module Tables.
Import Py IndividualConversion.

(** No tab and no line break: what a whitespace-delimited reader yields. *)
Definition clean (s : string) : bool :=
  negb (chr_in tab_chr s) && negb (chr_in nl_chr s).

(** A genotype cell the reader typed as numeric: missing or an integer. *)
Definition numeric_cell (c : cell) : bool :=
  match c with
  | NaN | Num _ => true
  | Text _ => false
  end.


Definition valid_row (df : DataFrame) (row : list cell) : bool :=
  match row_get df row "IID" with
  | Ok c => clean (cell_str c)
  | Raise _ => false
  end
  && forallb (fun col => match row_get df row col with
                         | Ok c => numeric_cell c
                         | Raise _ => false
                         end)
             (genotype_cols_of df).

(** The six identity columns are present, names and sample identifiers are
    clean, every genotype cell is missing or an integer. *)
Definition valid_table (df : DataFrame) : bool :=
  forallb (fun c => str_mem c (columns df)) sample_cols
  && forallb clean (columns df)
  && forallb (valid_row df) (rows df).

(** The metadata file is absent, or present and readable. *)
Definition metadata_usable (E : env) (fs : fsys) : Prop :=
  fs_lookup bim_file fs = None \/
  exists text x bim,
    fs_lookup bim_file fs = Some (File text x) /\ env_read_bim E text = Ok bim.

(** Neither result path is a directory. *)
Definition targets_writable (fs : fsys) : Prop :=
  fs_lookup output_file fs <> Some Dir /\ fs_lookup summary_file fs <> Some Dir.

(** Stripping the extension [.par], in the spec's words: the name without
    its last four characters when it ends in [.par]. *)
Definition strip_par_extension (name : string) : string :=
  if ends_with ".par" name
  then String.substring 0 (String.length name - 4) name
  else name.

End Tables.

(** ** Concrete environments and worlds *)
Module Scenarios.
Import Py Orchestration IndividualConversion.

(** Docker exits with 125 and the ancestry parser with 1; everything else
    exits with 0. *)
Definition tool_docker_and_parser_fail
  : list string -> option string -> fsys -> proc_result :=
  fun cmd _ fs =>
    if String.eqb (hd EmptyString cmd) "docker" then Exited 125 fs
    else if String.eqb (hd EmptyString cmd) "python" then Exited 1 fs
    else Exited 0 fs.

(** Every program exits with 0, except [bin], which exits with [code]. *)
Definition tool_fail_on (bin : string) (code : Z)
  : list string -> option string -> fsys -> proc_result :=
  fun cmd _ fs =>
    if String.eqb (hd EmptyString cmd) bin then Exited code fs else Exited 0 fs.

Definition tool_ok : list string -> option string -> fsys -> proc_result :=
  fun _ _ fs => Exited 0 fs.

Definition env_with (tool : list string -> option string -> fsys -> proc_result)
  : env :=
  {| env_home := "/home/u"; env_cwd := "/home/u/Desktop/PRS_New/VCF_Files/S1";
     env_uid := 1000; env_gid := 1000;
     env_tool := tool;
     env_json_load := fun _ => Ok ∅;
     env_read_table := simple_read_table;
     env_read_bim := simple_read_bim |}.

Definition world_of (fs : fsys) : world := World fs [] [] [].

(** A sample's call file and nothing else. *)
Definition w_vcf : world := world_of [("/data/s.vcf", File "##fileformat=VCFv4.2" false)].

(** A model directory with two model files, a hidden file and a nested one;
    the ancestry parser is installed. *)
Definition w_scores : world :=
  world_of [("/data/s.vcf", File "##fileformat=VCFv4.2" false);
            ("/scores", Dir);
            ("/scores/a.par", File "model" false);
            ("/scores/height.part2.par", File "model" false);
            ("/scores/.x.par", File "model" false);
            ("/scores/sub/b.par", File "model" false);
            ("/home/u/Desktop/PRS_New/PRS/ancestry_data_parse.py", File "parser" false)].

(** The same without the parser. *)
Definition w_scores_bare : world :=
  world_of [("/data/s.vcf", File "##fileformat=VCFv4.2" false);
            ("/scores", Dir);
            ("/scores/a.par", File "model" false)].

(** A model directory without model files. *)
Definition w_no_models : world :=
  world_of [("/scores", Dir); ("/scores/readme.txt", File "none" false)].

(** All that [prs_pipeline.py] needs, with the conversion output in place. *)
Definition w_installed : world :=
  world_of [("/data/s.vcf", File "##fileformat=VCFv4.2" false);
            ("/home/u/Desktop/PRS_New/PRS_Files/ETT_score_2.sh", File "#!/bin/bash" false);
            ("/home/u/Desktop/PRS_New/VCF_Files/individual_conversion.py",
             File "bim_file = HT.bim" false);
            ("/home/u/Desktop/PRS_New/VCF_Files/S1/individual_genotypes2.input",
             File "IID" false)].

(** The scenario of the spec: one sample, two variants, one value missing. *)
Definition raw_two_variants : string :=
  "FID IID PAT MAT SEX PHENOTYPE rs1_A rs2_G" +:+ nl +:+
  "0 S1 0 0 1 -9 0 NA" +:+ nl.

(** A table with the identity columns only. *)
Definition raw_no_variants : string :=
  "FID IID PAT MAT SEX PHENOTYPE" +:+ nl +:+
  "0 S1 0 0 1 -9" +:+ nl.

(** A table without the parental and phenotype columns. *)
Definition raw_short_prefix : string :=
  "FID IID rs1_A" +:+ nl +:+
  "0 S1 2" +:+ nl.

Definition w_raw (content : string) : world :=
  world_of [("individual_1.raw", File content false)].

End Scenarios.

(** ** Vocabulary for statements about a pipeline run *)
Module PipelineSpec.
Import Py Orchestration.

(** The dictionary [run_pipeline_cli] ends up with: the loaded
    configuration, or the empty one when there is no loadable file. *)
Definition cfg_of (E : env) (fs : fsys) : gmap string string :=
  match fs_lookup (CONFIG_FILE E) fs with
  | Some (File c _) =>
      match env_json_load E c with
      | Ok cfg => cfg
      | Raise _ => ∅
      end
  | _ => ∅
  end.

Definition plink_bin_of (E : env) (fs : fsys) : string :=
  default "plink" (cfg_of E fs !! "plink").
Definition plink2_bin_of (E : env) (fs : fsys) : string :=
  default "plink2" (cfg_of E fs !! "plink2").
Definition docker_bin_of (E : env) (fs : fsys) : string :=
  default "docker" (cfg_of E fs !! "docker").

(** The exception [run] raises for what the spawned program did, if any. *)
Definition failure_of (cmd : list string) (r : proc_result) : option exn :=
  match r with
  | Exited c _ => if (c =? 0)%Z then None else Some (CalledProcessError c cmd)
  | SpawnError e => Some e
  end.

(** The file system the program leaves behind. *)
Definition fs_after (r : proc_result) (fs : fsys) : fsys :=
  match r with
  | Exited _ fs' => fs'
  | SpawnError _ => fs
  end.

(** The directories of a run, created in the order of the two scripts. *)
Definition setup_fs_pipeline (E : env) (sample_id : string) (fs : fsys) : res fsys :=
  res_bind (fs_makedirs (vcf_dir_of E sample_id) fs) (fun fs1 =>
  res_bind (fs_makedirs (prs_dir_of E sample_id) fs1) (fun fs2 =>
  fs_makedirs (ancestry_dir E) fs2)).

Definition setup_fs_gui (E : env) (sample_id : string) (fs : fsys) : res fsys :=
  res_bind (setup_fs_pipeline E sample_id fs) (fun fs3 =>
  res_bind (fs_makedirs (prs_scripts_dir E) fs3) (fun fs4 =>
  fs_makedirs (prs_files_dir E) fs4)).

(** A world with more lines on standard output. *)
Definition with_out (w : world) (l : list string) : world :=
  World (w_fs w) (w_out w ++ l) (w_err w) (w_calls w).

(** The world in which the guarded block of [prs_pipeline.py] starts. *)
Definition start_world_pipeline (sample_id : string) (w : world) (fs1 : fsys) : world :=
  World fs1 (w_out w ++ ["Pipeline başlıyor... " +:+ sample_id]) (w_err w) (w_calls w).

(** The world in which the guarded block of [prs_gui.py] starts. *)
Definition start_world_gui (sample_id prs_score_dir : string) (w : world)
    (fs1 : fsys) : world :=
  World fs1 (w_out w ++ ["Pipeline başlıyor... " +:+ sample_id;
                         "Using PRS score directory: " +:+ prs_score_dir])
        (w_err w) (w_calls w).

Definition ancestry_warning (e : exn) : string :=
  "⚠ Docker ancestry step skipped (docker not available or image missing): "
  +:+ exn_str e.

(** The world [run] leaves, whatever the program did. *)
Definition run_world E (cmd : list string) (cwd : option string) (w : world) : world :=
  World (fs_after (env_tool E cmd cwd (w_fs w)) (w_fs w))
        (w_out w ++ [nl +:+ ">>> RUN: " +:+ join " " cmd]) (w_err w)
        (w_calls w ++ [Call cmd cwd]).

(** Stages 0 to 6 of [prs_pipeline.py]: everything before the ancestry
    estimator. *)
Definition pipeline_stages_to_handoff (E : env)
    (vcf sample_id plink_bin plink2_bin docker_bin : string) : M unit :=
  step0_validate vcf;;
  print ("Using plink: " +:+ plink_bin +:+ ", plink2: " +:+ plink2_bin
         +:+ ", docker: " +:+ docker_bin);;
  step1_import E plink_bin vcf sample_id;;
  step2_normalize E plink2_bin sample_id;;
  PrsPipeline.step3_score E sample_id;;
  step4_recode E plink_bin sample_id;;
  PrsPipeline.step5_convert E sample_id;;
  PrsPipeline.step6_handoff E sample_id.


End PipelineSpec.

(** ** Concrete runs *)
Module RunScenarios.
Import Py Orchestration PipelineSpec Scenarios.

Definition vcf0 : string := "/data/s.vcf".

(** [prs_pipeline.py] with an import tool that exits with 1. *)
Definition env_import_fails : env := env_with (tool_fail_on "plink" 1).
Definition fs1_import : fsys :=
  res_default [] (setup_fs_pipeline env_import_fails "S1" (w_fs w_vcf)).
Definition cmd_import : list string :=
  import_cmd (plink_bin_of env_import_fails (w_fs w_vcf)) vcf0
    (out_prefix_of env_import_fails "S1").

(** [prs_gui.py] with a Docker that exits with 125, no parser and no report
    script installed. *)
Definition env_docker_fails : env := env_with (tool_fail_on "docker" 125).
Definition gui_fs1 : fsys :=
  res_default [] (setup_fs_gui env_docker_fails "S1" (w_fs w_scores_bare)).
Definition gui_w6 : world :=
  snd (PrsGui.required_stages env_docker_fails vcf0 "S1" "/scores"
         "plink" "plink2" "docker"
         (start_world_gui "S1" "/scores" w_scores_bare gui_fs1)).
Definition gui_ancestry_cmd : list string :=
  ancestry_cmd env_docker_fails "docker" (ancestry_dir env_docker_fails) "python".
Definition gui_w7 : world := snd (run env_docker_fails gui_ancestry_cmd None gui_w6).
Definition gui_w9 : world :=
  snd (PrsGui.closing_stages env_docker_fails "S1"
         (with_out gui_w7
            [ancestry_warning (CalledProcessError 125 gui_ancestry_cmd)])).

(** [prs_gui.py] with tools that exit with 0 and write nothing. *)
Definition env_idle : env := env_with tool_ok.

(** The programs spawned in a run, in order. *)
Definition programs (w : world) : list string :=
  map (fun c => hd EmptyString (call_cmd c)) (w_calls w).

End RunScenarios.

(** ** What the scripts leave behind
    The results of a conversion as functions of the table read, the commands
    of a run as lists, and the arguments [prs_gui.py] turns down. *)
Module Effects.
Import Py IndividualConversion Orchestration PipelineSpec.

(** The data lines of the output: one per sample, in input order. *)
Definition expected_body (df : DataFrame) : list string :=
  res_default [] (res_map (row_line df (genotype_cols_of df)) (rows df)).

(** The text of [individual_genotypes2.input]. *)
Definition expected_output (df : DataFrame) : string :=
  join nl (join tab ("IID" :: genotype_cols_of df) :: expected_body df).

(** The text of [conversion_summary.txt]. *)
Definition expected_summary (df : DataFrame) : string :=
  "Conversion Summary" +:+ nl +:+
  "==================" +:+ nl +:+
  "Input raw file: " +:+ raw_file +:+ nl +:+
  "Input BIM file: " +:+ bim_file +:+ nl +:+
  "Output file: " +:+ output_file +:+ nl +:+
  "Total samples: " +:+ pretty (length (rows df)) +:+ nl +:+
  "Total variants: " +:+ pretty (length (genotype_cols_of df)) +:+ nl +:+
  "Sample IDs: " +:+
  join ", " (map cell_str
               (res_default [] (res_map (fun row => row_get df row "IID") (rows df))))
  +:+ nl.

(** The executable bit of a file; [open(p, "w")] keeps it. *)
Definition mode_at (p : string) (fs : fsys) : bool :=
  match fs_lookup p fs with
  | Some (File _ x) => x
  | _ => false
  end.

(** The file system after a successful conversion of [df]. *)
Definition converted_fs (df : DataFrame) (fs : fsys) : fsys :=
  fs_set summary_file (File (expected_summary df) (mode_at summary_file fs))
    (fs_set output_file (File (expected_output df) (mode_at output_file fs)) fs).

(** [m] spawns no subprocess, whatever it returns or raises. *)
Definition keeps_calls {A} (m : M A) : Prop :=
  forall w r w1, m w = (r, w1) -> w_calls w1 = w_calls w.

(** The commands a run of [m] spawns: those of one of the lists in [P] when
    it returns, the first ones of such a list when it raises. *)
Definition traces {A} (m : M A) (P : list call -> Prop) : Prop :=
  forall w r w1, m w = (r, w1) ->
    exists L l, P L /\ l `prefix_of` L /\ w_calls w1 = (w_calls w ++ l)%list /\
                (forall a, r = Ok a -> l = L).

(** The commands of stages 1 to 7, in the order of [run_pipeline_cli];
    [image] and [score_script] are what the two files differ in. *)
Definition required_calls (E : env) (image score_script vcf sid : string) (fs : fsys)
  : list call :=
  [Call (import_cmd (plink_bin_of E fs) vcf (out_prefix_of E sid)) None;
   Call (normalize_cmd (plink2_bin_of E fs) (out_prefix_of E sid)
           (out_prefix_id_of E sid)) None;
   Call (score_cmd score_script (out_prefix_id_of E sid) (prs_dir_of E sid)) None;
   Call (recode_cmd (plink_bin_of E fs) (out_prefix_id_of E sid) (vcf_dir_of E sid)) None;
   Call convert_cmd (Some (vcf_dir_of E sid));
   Call (ancestry_cmd E (docker_bin_of E fs) (ancestry_dir E) image) None].

(** Stages 8 and 9 run a script only when it is installed. *)
Definition optional_calls (E : env) : list (list call) :=
  [ [];
    [Call parse_cmd (Some (prs_scripts_dir E))];
    [Call report_cmd (Some (prs_scripts_dir E))];
    [Call parse_cmd (Some (prs_scripts_dir E));
     Call report_cmd (Some (prs_scripts_dir E))] ].

(** Stages 0 to 4 of [prs_pipeline.py] and stage 5 up to and including the
    run of the conversion script. *)
Definition pipeline_stages_to_conversion (E : env)
    (vcf sample_id plink_bin plink2_bin docker_bin : string) : M unit :=
  step0_validate vcf;;
  print ("Using plink: " +:+ plink_bin +:+ ", plink2: " +:+ plink2_bin
         +:+ ", docker: " +:+ docker_bin);;
  step1_import E plink_bin vcf sample_id;;
  step2_normalize E plink2_bin sample_id;;
  PrsPipeline.step3_score E sample_id;;
  step4_recode E plink_bin sample_id;;
  PrsPipeline.patch_conversion_script E sample_id;;
  run E convert_cmd (Some (vcf_dir_of E sample_id)).



End Effects.

(** ** More concrete inputs *)
Module MoreScenarios.
Import Py IndividualConversion Orchestration PipelineSpec Scenarios.

(** [raw_two_variants] as the reader returns it. *)
Definition df_two_variants : DataFrame :=
  {| columns := ["FID"; "IID"; "PAT"; "MAT"; "SEX"; "PHENOTYPE"; "rs1_A"; "rs2_G"];
     rows := [[Num 0; Text "S1"; Num 0; Num 0; Num 1; Num (-9); Num 0; NaN]] |}.

Definition bim_two_variants : string :=
  "1" +:+ tab +:+ "rs1" +:+ tab +:+ "0" +:+ tab +:+ "100" +:+ tab +:+ "A" +:+ tab +:+ "G"
  +:+ nl +:+
  "1" +:+ tab +:+ "rs2" +:+ tab +:+ "0" +:+ tab +:+ "200" +:+ tab +:+ "G" +:+ tab +:+ "T"
  +:+ nl.

(** The same table with its metadata file beside it. *)
Definition w_raw_bim : world :=
  world_of [("individual_1.raw", File raw_two_variants false);
            ("HT.bim", File bim_two_variants false)].



(** [raw_short_prefix] as the reader returns it. *)
Definition df_short_prefix : DataFrame :=
  {| columns := ["FID"; "IID"; "rs1_A"];
     rows := [[Num 0; Text "S1"; Num 2]] |}.

(** A configuration file that [json.load] refuses. *)
Definition env_bad_config : env :=
  {| env_home := "/home/u"; env_cwd := "/home/u";
     env_uid := 1000; env_gid := 1000;
     env_tool := tool_ok;
     env_json_load :=
       fun _ => Raise (ValueError "Expecting value: line 1 column 1 (char 0)");
     env_read_table := simple_read_table;
     env_read_bim := simple_read_bim |}.

Definition w_bad_config : world :=
  world_of [("/data/s.vcf", File "##fileformat=VCFv4.2" false);
            ("/home/u/.prs_pipeline_config.json", File "not json" false);
            ("/scores", Dir);
            ("/scores/a.par", File "model" false)].

(** What [prs_pipeline.py] needs up to the conversion, whose output is not
    there; the installed conversion script names the placeholder metadata
    file. *)
Definition conversion_script_line : string :=
  "bim_file = " +:+ dq +:+ "HT.bim" +:+ dq.

Definition w_installed_no_output : world :=
  world_of [("/data/s.vcf", File "##fileformat=VCFv4.2" false);
            ("/home/u/Desktop/PRS_New/PRS_Files/ETT_score_2.sh", File "#!/bin/bash" false);
            ("/home/u/Desktop/PRS_New/VCF_Files/individual_conversion.py",
             File conversion_script_line false)].

(** The file system of sample [S1] once its directories are there. *)
Definition pipeline_fs1 (E : env) (w : world) : fsys :=
  res_default [] (setup_fs_pipeline E "S1" (w_fs w)).

End MoreScenarios.

(** ** Facts about the runtime fragment *)
Module PyFacts.
Import Py.

Lemma bind_ok {A B} (m : M A) (k : A -> M B) w a w' :
  m w = (Ok a, w') -> bind m k w = k a w'.
Proof. intros H. unfold bind. now rewrite H. Qed.

Lemma bind_raise {A B} (m : M A) (k : A -> M B) w e w' :
  m w = (Raise e, w') -> bind m k w = (Raise e, w').
Proof. intros H. unfold bind. now rewrite H. Qed.

(** One statement of a monadic block that returns normally. *)
Ltac step := erewrite bind_ok; [| first [reflexivity | eassumption ] ].

Lemma append_nil_r s : s +:+ EmptyString = s.
Proof.
  induction s as [|a s IH]; [reflexivity|].
  change (String a (s +:+ EmptyString) = String a s). now rewrite IH.
Qed.

Lemma append_assoc s t u : (s +:+ t) +:+ u = s +:+ (t +:+ u).
Proof.
  induction s as [|a s IH]; [reflexivity|].
  change (String a ((s +:+ t) +:+ u) = String a (s +:+ (t +:+ u))).
  now rewrite IH.
Qed.

Lemma split_chr_nonempty c s : split_chr c s <> [].
Proof.
  destruct s as [|a s]; simpl; [discriminate|].
  destruct (Ascii.eqb a c); [discriminate|].
  destruct (split_chr c s); discriminate.
Qed.

(** A string that contains the separator splits into at least two parts. *)
Lemma split_chr_length_ge2 c s :
  chr_in c s = true -> (2 <= length (split_chr c s))%nat.
Proof.
  induction s as [|a s IH]; simpl; [discriminate|].
  destruct (Ascii.eqb a c) eqn:Hac; simpl.
  - intros _. pose proof (split_chr_nonempty c s) as Hne.
    destruct (split_chr c s); [congruence | simpl; lia].
  - intros H. specialize (IH H).
    destruct (split_chr c s); simpl in *; lia.
Qed.

Lemma split_chr_free c s :
  chr_in c s = false -> split_chr c s = [s].
Proof.
  induction s as [|a s IH]; simpl; [reflexivity|].
  destruct (Ascii.eqb a c); simpl; [discriminate|].
  intros H. now rewrite (IH H).
Qed.




Lemma fs_lookup_set_eq p n fs : fs_lookup p (fs_set p n fs) = Some n.
Proof.
  induction fs as [|[q m] fs IH]; simpl.
  - now rewrite String.eqb_refl.
  - destruct (String.eqb q p) eqn:Hq; simpl; now rewrite Hq.
Qed.

Lemma fs_lookup_set_ne p q n fs :
  p <> q -> fs_lookup q (fs_set p n fs) = fs_lookup q fs.
Proof.
  intros Hne. induction fs as [|[r m] fs IH]; simpl.
  - destruct (String.eqb p q) eqn:Hpq; [|reflexivity].
    apply String.eqb_eq in Hpq. contradiction.
  - destruct (String.eqb r p) eqn:Hrp; simpl.
    + apply String.eqb_eq in Hrp. subst r.
      destruct (String.eqb p q) eqn:Hpq; [|reflexivity].
      apply String.eqb_eq in Hpq. contradiction.
    + destruct (String.eqb r q); [reflexivity | exact IH].
Qed.



Lemma res_map_total {A B} (f : A -> res B) l :
  (forall x, In x l -> exists y, f x = Ok y) ->
  exists l', res_map f l = Ok l'.
Proof.
  induction l as [|a l IH]; simpl; intros H; [eauto|].
  destruct (H a (or_introl eq_refl)) as [b Hb]. rewrite Hb. simpl.
  destruct IH as [bs Hbs]; [intros; apply H; now right|].
  rewrite Hbs. simpl. eauto.
Qed.

End PyFacts.

(** ** The genotype recode converter *)
Module ConversionFacts.
Import Py PyFacts IndividualConversion Tables.

Lemma header_fold cols : forall acc,
  fold_left header_step cols acc = (acc ++ cols)%list.
Proof.
  induction cols as [|col cols IH]; intros acc; simpl.
  - now rewrite app_nil_r.
  - rewrite IH. unfold header_step.
    destruct (chr_in underscore_chr col) eqn:Hin.
    + pose proof (split_chr_length_ge2 _ _ Hin) as Hlen.
      apply Nat.leb_le in Hlen. rewrite Hlen. now rewrite <- app_assoc.
    + now rewrite <- app_assoc.
Qed.

(** With or without metadata the header is [IID] followed by the variant
    column names as they are. *)
Lemma header_parts_of_eq b cols : header_parts_of b cols = "IID" :: cols.
Proof. destruct b; simpl; [apply header_fold | reflexivity]. Qed.

Lemma index_of_mem c cols :
  str_mem c cols = true -> exists i, index_of c cols = Some i.
Proof.
  unfold str_mem. induction cols as [|d cols IH]; simpl; [discriminate|].
  rewrite (String.eqb_sym c d).
  destruct (String.eqb d c); simpl; [eauto|].
  intros H. destruct (IH H) as [i Hi]. rewrite Hi. simpl. eauto.
Qed.

Lemma select_columns_ok df cols :
  forallb (fun c => str_mem c (columns df)) cols = true ->
  select_columns df cols = Ok tt.
Proof.
  intros H. unfold select_columns.
  assert (Hnil : List.filter (fun c => negb (str_mem c (columns df))) cols = []).
  { induction cols as [|c cols IH]; simpl in *; [reflexivity|].
    apply andb_prop in H as [Hc Hr]. rewrite Hc. simpl. now apply IH. }
  now rewrite Hnil.
Qed.

(** A decimal numeral holds digits and a sign, no tab and no line break. *)
Lemma pretty_N_char_clean c x :
  c = tab_chr \/ c = nl_chr -> Ascii.eqb (pretty_N_char x) c = false.
Proof.
  intros [-> | ->]; unfold pretty_N_char; repeat case_match; reflexivity.
Qed.

Lemma pretty_N_go_clean c :
  c = tab_chr \/ c = nl_chr ->
  forall n acc, chr_in c acc = false -> chr_in c (pretty_N_go n acc) = false.
Proof.
  intros Hc n. induction (N.lt_wf_0 n) as [n _ IH]. intros acc Hacc.
  destruct (decide (n = 0%N)) as [->|Hn].
  - now rewrite pretty_N_go_0.
  - rewrite pretty_N_go_step by lia. apply IH.
    + apply N.div_lt; lia.
    + simpl. now rewrite Hacc, (pretty_N_char_clean c _ Hc).
Qed.

Lemma pretty_N_clean c (n : N) :
  c = tab_chr \/ c = nl_chr -> chr_in c (pretty n) = false.
Proof.
  intros Hc. unfold pretty, pretty_N.
  destruct (decide (n = 0%N)); [destruct Hc as [-> | ->]; reflexivity|].
  now apply pretty_N_go_clean.
Qed.

Lemma pretty_Z_clean (z : Z) : clean (pretty z) = true.
Proof.
  assert (HZ : forall c, c = tab_chr \/ c = nl_chr ->
               chr_in c (pretty z) = false).
  { intros c Hc. unfold pretty, pretty_Z. destruct z as [|p|p].
    - destruct Hc as [-> | ->]; reflexivity.
    - apply (pretty_N_clean c (N.pos p) Hc).
    - change (chr_in c (String minus_chr (pretty (N.pos p))) = false).
      simpl. rewrite (pretty_N_clean c (N.pos p) Hc).
      destruct Hc as [-> | ->]; reflexivity. }
  unfold clean. now rewrite (HZ tab_chr), (HZ nl_chr) by auto.
Qed.

Lemma numeric_genotype_str c :
  numeric_cell c = true -> exists g, genotype_str c = Ok g /\ clean g = true.
Proof.
  destruct c as [|z|s]; simpl; [| |discriminate]; intros _.
  - exists "NA". split; reflexivity.
  - exists (pretty z). split; [reflexivity | apply pretty_Z_clean].
Qed.

Lemma chr_in_app c s t : chr_in c (s +:+ t) = chr_in c s || chr_in c t.
Proof.
  induction s as [|a s IH]; simpl; [reflexivity|].
  now rewrite IH, orb_assoc.
Qed.

Lemma chr_in_join c sep l :
  chr_in c sep = false ->
  forallb (fun s => negb (chr_in c s)) l = true ->
  chr_in c (join sep l) = false.
Proof.
  intros Hsep. induction l as [|x l IH]; simpl; [reflexivity|].
  intros H. apply andb_prop in H as [Hx Hl].
  apply negb_true_iff in Hx.
  destruct l as [|y l]; [exact Hx|].
  change (chr_in c (x +:+ sep +:+ join sep (y :: l)) = false).
  now rewrite !chr_in_app, Hx, Hsep, IH.
Qed.


Lemma clean_nl_free l :
  forallb clean l = true -> forallb (fun s => negb (chr_in nl_chr s)) l = true.
Proof.
  induction l as [|x l IH]; simpl; [reflexivity|].
  intros H. apply andb_prop in H as [Hx Hl]. unfold clean in Hx.
  apply andb_prop in Hx as [_ Hn]. now rewrite Hn, IH.
Qed.

Lemma genotypes_ok df row cols :
  forallb (fun col => match row_get df row col with
                      | Ok c => numeric_cell c
                      | Raise _ => false
                      end) cols = true ->
  exists gs,
    res_map (fun col => res_bind (row_get df row col) genotype_str) cols = Ok gs
    /\ forallb clean gs = true /\ length gs = length cols.
Proof.
  induction cols as [|col cols IH]; simpl; intros H.
  - exists []. auto.
  - apply andb_prop in H as [Hc Hr].
    destruct (row_get df row col) as [c|] eqn:Hget; [|discriminate].
    destruct (numeric_genotype_str c Hc) as (g & Hg & Hclean).
    destruct (IH Hr) as (gs & Hgs & Hcl & Hlen).
    exists (g :: gs). simpl. rewrite Hg. simpl. rewrite Hgs. simpl.
    rewrite Hclean, Hcl, Hlen. auto.
Qed.

(** A valid row is written as the sample identifier, a tab, and the
    tab-joined genotype texts. *)
Lemma row_line_ok df row :
  valid_row df row = true ->
  exists iid gs,
    row_get df row "IID" = Ok iid /\ clean (cell_str iid) = true /\
    res_map (fun col => res_bind (row_get df row col) genotype_str)
            (genotype_cols_of df) = Ok gs /\
    forallb clean gs = true /\ length gs = length (genotype_cols_of df) /\
    row_line df (genotype_cols_of df) row
    = Ok (cell_str iid +:+ tab +:+ join tab gs).
Proof.
  unfold valid_row. intros H. apply andb_prop in H as [Hid Hg].
  destruct (row_get df row "IID") as [iid|] eqn:Hiid; [|discriminate].
  destruct (genotypes_ok df row _ Hg) as (gs & Hgs & Hcl & Hlen).
  exists iid, gs. repeat split; auto.
  unfold row_line. rewrite Hiid. simpl. rewrite Hgs. reflexivity.
Qed.

Lemma row_line_clean df row line :
  valid_row df row = true ->
  row_line df (genotype_cols_of df) row = Ok line ->
  chr_in nl_chr line = false.
Proof.
  intros Hv Hl.
  destruct (row_line_ok df row Hv) as (iid & gs & _ & Hid & _ & Hcl & _ & Heq).
  rewrite Heq in Hl. inversion Hl; subst line.
  unfold clean in Hid. apply andb_prop in Hid as [_ Hn].
  apply negb_true_iff in Hn.
  rewrite !chr_in_app, Hn. simpl.
  apply chr_in_join; [reflexivity | now apply clean_nl_free].
Qed.

Lemma body_ok df rws :
  forallb (valid_row df) rws = true ->
  exists body,
    res_map (row_line df (genotype_cols_of df)) rws = Ok body /\
    forallb (fun s => negb (chr_in nl_chr s)) body = true.
Proof.
  induction rws as [|row rws IH]; simpl; intros H.
  - exists []. auto.
  - apply andb_prop in H as [Hrow Hr].
    destruct (row_line_ok df row Hrow) as (iid & gs & _ & _ & _ & _ & _ & Heq).
    destruct (IH Hr) as (body & Hb & Hcl).
    exists ((cell_str iid +:+ tab +:+ join tab gs) :: body).
    rewrite Heq. simpl. rewrite Hb. simpl. split; [reflexivity|].
    rewrite Hcl, andb_true_r. apply negb_true_iff.
    now apply (row_line_clean df row _ Hrow).
Qed.

Lemma iids_ok df rws :
  str_mem "IID" (columns df) = true ->
  exists iids, res_map (fun row => row_get df row "IID") rws = Ok iids.
Proof.
  intros H. apply res_map_total. intros row _.
  unfold row_get. destruct (index_of_mem _ _ H) as [i ->]. eauto.
Qed.

(** *** The primitives on a known world *)
Lemma read_file_ok p w c x :
  fs_lookup p (w_fs w) = Some (File c x) -> read_file p w = (Ok c, w).
Proof.
  intros H. unfold read_file, bind, get_fs, fs_read. now rewrite H.
Qed.

Lemma write_file_ok p c w :
  fs_lookup p (w_fs w) <> Some Dir ->
  exists x,
    write_file p c w
    = (Ok tt, World (fs_set p (File c x) (w_fs w)) (w_out w) (w_err w) (w_calls w)).
Proof.
  intros H. unfold write_file, lift_fs, bind, get_fs, fs_write, put_fs.
  destruct (fs_lookup p (w_fs w)) as [[|c' x]|]; [congruence | eauto | eauto].
Qed.


Lemma load_bim_ok E w :
  metadata_usable E (w_fs w) ->
  exists bd l,
    load_bim E w = (Ok bd, World (w_fs w) (w_out w ++ [l]) (w_err w) (w_calls w))
    /\ (fs_lookup bim_file (w_fs w) = None ->
        l = "Warning: BIM file not found: " +:+ bim_file).
Proof.
  intros [Hnone | (text & x & bim & Hsome & Hread)]; unfold load_bim.
  - step. unfold fs_exists. rewrite Hnone.
    do 2 eexists. split; [reflexivity | auto].
  - step. unfold fs_exists. rewrite Hsome.
    erewrite bind_ok;
      [| unfold read_bim; erewrite bind_ok by (eapply read_file_ok; eassumption);
         rewrite Hread; reflexivity ].
    do 2 eexists. split; [reflexivity | congruence].
Qed.








Import Scenarios.




(** The scenario of the spec, run through the model. *)
Example spec_scenario :
  fs_read output_file
    (w_fs (snd (convert_genotypes (env_with tool_ok) (w_raw raw_two_variants))))
  = Ok ("IID" +:+ tab +:+ "rs1_A" +:+ tab +:+ "rs2_G" +:+ nl +:+
        "S1" +:+ tab +:+ "0" +:+ tab +:+ "NA").
Proof. vm_compute. reflexivity. Qed.

(** C5 at a table without variant columns ([N = 0], one sample): the
    conversion succeeds, the header line has the one field [IID], and the
    data line is the sample identifier followed by a tab, which a
    tab-delimited reader takes for two fields. *)
Theorem no_variant_columns_trailing_tab :
  exists df w',
    simple_read_table raw_no_variants = Ok df /\
    length (genotype_cols_of df) = 0%nat /\
    length (rows df) = 1%nat /\
    convert_genotypes (env_with tool_ok) (w_raw raw_no_variants) = (Ok true, w') /\
    fs_read output_file (w_fs w') = Ok ("IID" +:+ nl +:+ "S1" +:+ tab) /\
    map (split_chr tab_chr) (split_chr nl_chr ("IID" +:+ nl +:+ "S1" +:+ tab))
    = [["IID"]; ["S1"; EmptyString]].
Proof.
  exists {| columns := ["FID"; "IID"; "PAT"; "MAT"; "SEX"; "PHENOTYPE"];
            rows := [[Num 0; Text "S1"; Num 0; Num 0; Num 1; Num (-9)]] |}.
  exists (snd (convert_genotypes (env_with tool_ok) (w_raw raw_no_variants))).
  repeat split; vm_compute; reflexivity.
Qed.

End ConversionFacts.

(** ** The score-script synthesizer *)
Module SynthesisFacts.
Import Py PyFacts Orchestration PrsGui Tables Scenarios.

Lemma last_chr_app s t : t <> EmptyString -> last_chr (s +:+ t) = last_chr t.
Proof.
  intros Ht. induction s as [|a s IH]; simpl; [reflexivity|].
  rewrite IH. destruct (s +:+ t) eqn:Hst; [|reflexivity].
  exfalso. destruct s; [change (t = EmptyString) in Hst; congruence | discriminate].
Qed.

Lemma ends_with_nil suf : ends_with suf EmptyString = true -> suf = EmptyString.
Proof. destruct suf; simpl; [reflexivity | discriminate]. Qed.

Lemma ends_with_last suf s :
  suf <> EmptyString -> ends_with suf s = true -> last_chr s = last_chr suf.
Proof.
  intros Hsuf. induction s as [|a s IH].
  - intros H. apply ends_with_nil in H. congruence.
  - cbn [ends_with]. intros H. apply orb_prop in H as [H | H].
    + apply String.eqb_eq in H. now rewrite <- H.
    + rewrite <- (IH H). destruct s; [|reflexivity].
      apply ends_with_nil in H. congruence.
Qed.

Lemma strip_prefix_app p s name :
  strip_prefix p s = Some name -> s = p +:+ name.
Proof.
  revert s. induction p as [|a p IH]; intros s; simpl.
  - intros H. now inversion H.
  - destruct s as [|b s]; [discriminate|].
    destruct (Ascii.eqb a b) eqn:Hab; [|discriminate].
    apply Ascii.eqb_eq in Hab. subst b. intros H. now rewrite (IH _ H).
Qed.

Lemma glob_match_last d ext p :
  ext <> EmptyString -> glob_match d ext p = true -> last_chr p = last_chr ext.
Proof.
  intros Hext. unfold glob_match.
  destruct (strip_prefix (dir_prefix d) p) as [name|] eqn:Hs; [|discriminate].
  unfold glob_name_ok. intros H. apply andb_prop in H as [_ Hend].
  apply strip_prefix_app in Hs. subst p.
  rewrite last_chr_app.
  - now apply ends_with_last.
  - intros ->. apply ends_with_nil in Hend. congruence.
Qed.

Lemma path_join_last a b :
  b <> EmptyString -> String.prefix "/" b = false ->
  last_chr (path_join a b) = last_chr b.
Proof.
  intros Hb Hp. unfold path_join. rewrite Hp.
  destruct (String.eqb a EmptyString || ends_with "/" a).
  - now apply last_chr_app.
  - rewrite last_chr_app; [now apply last_chr_app|].
    destruct b; [congruence | discriminate].
Qed.

Lemma script_path_not_model E d : glob_match d ".par" (script_path E) = false.
Proof.
  destruct (glob_match d ".par" (script_path E)) eqn:H; [|reflexivity].
  apply glob_match_last in H; [|discriminate].
  unfold script_path in H. rewrite path_join_last in H by (discriminate || reflexivity).
  discriminate.
Qed.

Lemma script_path_not_config E : script_path E <> CONFIG_FILE E.
Proof.
  intros H. apply (f_equal last_chr) in H.
  unfold script_path, CONFIG_FILE in H.
  rewrite path_join_last in H by (discriminate || reflexivity).
  rewrite last_chr_app in H by discriminate. discriminate.
Qed.

Lemma fs_set_keys p n fs :
  map fst (fs_set p n fs)
  = if fs_exists p fs then map fst fs else (map fst fs ++ [p])%list.
Proof.
  unfold fs_exists. induction fs as [|[q m] fs IH]; simpl; [reflexivity|].
  destruct (String.eqb q p) eqn:Hq; simpl; [reflexivity|].
  rewrite IH. now destruct (fs_lookup p fs).
Qed.

Lemma glob_ext_set d ext p n fs :
  glob_match d ext p = false ->
  glob_ext d ext (fs_set p n fs) = glob_ext d ext fs.
Proof.
  intros H. unfold glob_ext. rewrite fs_set_keys.
  destruct (fs_exists p fs); [reflexivity|].
  rewrite List.filter_app. simpl. rewrite H. apply app_nil_r.
Qed.

Lemma fs_set_set p n m fs : fs_set p n (fs_set p m fs) = fs_set p n fs.
Proof.
  induction fs as [|[q k] fs IH]; simpl.
  - now rewrite String.eqb_refl.
  - destruct (String.eqb q p) eqn:Hq; simpl; rewrite Hq; [reflexivity|].
    now rewrite IH.
Qed.


Lemma read_cfg_eq E w :
  read_cfg E w
  = (match fs_lookup (CONFIG_FILE E) (w_fs w) with
     | None => Ok ∅
     | Some Dir =>
         Raise (OSError ("[Errno 21] Is a directory: '" +:+ CONFIG_FILE E +:+ "'"))
     | Some (File c _) => env_json_load E c
     end, w).
Proof.
  unfold read_cfg. step. unfold fs_exists.
  destruct (fs_lookup (CONFIG_FILE E) (w_fs w)) as [[|c x]|] eqn:Hc;
    [| | reflexivity].
  - unfold bind, read_file, bind, get_fs, fs_read. now rewrite Hc.
  - unfold bind, read_file, bind, get_fs, fs_read. rewrite Hc.
    unfold ret, lift_res. destruct (env_json_load E c); reflexivity.
Qed.

(** The whole of [create_ett_score_script], case by case. *)
Lemma create_unfold E dir sid w :
  create_ett_score_script E dir sid w =
  match glob_ext dir ".par" (w_fs w) with
  | [] => (Raise (FileNotFoundError ("No .par files found in " +:+ dir)), w)
  | _ :: _ =>
      match fst (read_cfg E w) with
      | Raise e => (Raise e, w)
      | Ok cfg =>
          let text := script_text dir (default "plink2" (cfg !! "plink2"))
                        (glob_ext dir ".par" (w_fs w)) in
          match fs_write (script_path E) text (w_fs w) with
          | Raise e => (Raise e, w)
          | Ok fs1 =>
              match fs_chmod_exec (script_path E) fs1 with
              | Raise e => (Raise e, World fs1 (w_out w) (w_err w) (w_calls w))
              | Ok fs2 =>
                  (Ok (script_path E),
                   World fs2
                     (w_out w ++ ["Created ETT_score_2.sh at " +:+ script_path E])
                     (w_err w) (w_calls w))
              end
          end
      end
  end.
Proof.
  unfold create_ett_score_script. step.
  destruct (glob_ext dir ".par" (w_fs w)) as [|f fs] eqn:Hg.
  - erewrite bind_raise by reflexivity. reflexivity.
  - step. unfold bind at 1. rewrite (read_cfg_eq E w). cbn [fst].
    destruct (match fs_lookup (CONFIG_FILE E) (w_fs w) with
              | Some Dir => _ | Some (File c _) => _ | None => _ end)
      as [cfg|e]; [|reflexivity].
    cbv zeta. unfold bind at 1. unfold write_file, lift_fs. unfold bind at 1.
    cbn [get_fs].
    destruct (fs_write (script_path E) _ (w_fs w)) as [fs1|e]; [|reflexivity].
    cbn [put_fs w_fs w_out w_err w_calls].
    unfold bind at 1. unfold chmod_exec, lift_fs. unfold bind at 1.
    cbn [get_fs w_fs].
    destruct (fs_chmod_exec (script_path E) fs1) as [fs2|e]; [|reflexivity].
    reflexivity.
Qed.

(** C7: with no file matching [*.par] in the model directory the
    synthesizer raises [FileNotFoundError] ("No .par files found") and the
    world, the script location included, is left untouched. *)
Theorem no_model_files_no_script E dir sid w :
  glob_ext dir ".par" (w_fs w) = [] ->
  create_ett_score_script E dir sid w
  = (Raise (FileNotFoundError ("No .par files found in " +:+ dir)), w).
Proof. intros H. rewrite create_unfold. now rewrite H. Qed.



(** What a successful run of the synthesizer has done. *)
Lemma create_inv E dir sid w path w1 :
  create_ett_score_script E dir sid w = (Ok path, w1) ->
  exists cfg,
    fst (read_cfg E w) = Ok cfg /\
    path = script_path E /\
    glob_ext dir ".par" (w_fs w) <> [] /\
    w1 = World (fs_set (script_path E)
                  (File (script_text dir (default "plink2" (cfg !! "plink2"))
                           (glob_ext dir ".par" (w_fs w))) true)
                  (w_fs w))
               (w_out w ++ ["Created ETT_score_2.sh at " +:+ script_path E])
               (w_err w) (w_calls w).
Proof.
  intros H. rewrite create_unfold in H.
  destruct (glob_ext dir ".par" (w_fs w)) as [|f fl] eqn:Hg; [discriminate|].
  destruct (fst (read_cfg E w)) as [cfg|e] eqn:Hcfg; [|discriminate].
  cbv zeta in H.
  set (text := script_text dir (default "plink2" (cfg !! "plink2")) (f :: fl)) in *.
  assert (Hw : exists x0,
             fs_write (script_path E) text (w_fs w)
             = Ok (fs_set (script_path E) (File text x0) (w_fs w))).
  { unfold fs_write in *.
    destruct (fs_lookup (script_path E) (w_fs w)) as [[|c x0]|];
      [discriminate | eauto | eauto]. }
  destruct Hw as [x0 Hw]. rewrite Hw in H.
  unfold fs_chmod_exec in H. rewrite fs_lookup_set_eq, fs_set_set in H.
  inversion H; subst path w1. clear H.
  exists cfg. split; [reflexivity|]. split; [reflexivity|].
  split; [discriminate | reflexivity].
Qed.

(** C9: synthesis is idempotent.  After a run that produced the script, a
    second run over the directory produces the same script text at the same
    fixed location [PRS_Files/ETT_score_2.sh], overwriting the file with what
    it already holds: the file system is left as the first run left it.  The
    text is a function of the directory path, the configured [plink2] and the
    model files found. *)
Theorem synthesis_idempotent E dir sid sid' w path w1 :
  create_ett_score_script E dir sid w = (Ok path, w1) ->
  exists cfg w2,
    fst (read_cfg E w) = Ok cfg /\
    path = script_path E /\
    fs_read path (w_fs w1)
    = Ok (script_text dir (default "plink2" (cfg !! "plink2"))
            (glob_ext dir ".par" (w_fs w))) /\
    create_ett_score_script E dir sid' w1 = (Ok path, w2) /\
    w_fs w2 = w_fs w1.
Proof.
  intros H. destruct (create_inv _ _ _ _ _ _ H) as (cfg & Hcfg & -> & Hg & ->).
  clear H.
  destruct (glob_ext dir ".par" (w_fs w)) as [|f fl] eqn:Hgl; [congruence|].
  exists cfg. eexists. split; [exact Hcfg|]. split; [reflexivity|].
  cbn [w_fs w_out w_err w_calls].
  split.
  { unfold fs_read. now rewrite fs_lookup_set_eq. }
  rewrite create_unfold. cbn [w_fs w_out w_err w_calls].
  rewrite glob_ext_set by apply script_path_not_model. rewrite Hgl.
  rewrite read_cfg_eq in Hcfg |- *. cbn [fst w_fs] in Hcfg |- *.
  rewrite fs_lookup_set_ne by apply script_path_not_config.
  rewrite Hcfg. cbv zeta.
  unfold fs_write. rewrite fs_lookup_set_eq, fs_set_set.
  unfold fs_chmod_exec. rewrite fs_lookup_set_eq, fs_set_set.
  split; reflexivity.
Qed.

Lemma no_model_files_witness :
  create_ett_score_script (env_with tool_ok) "/scores" "S1" w_no_models
  = (Raise (FileNotFoundError ("No .par files found in " +:+ "/scores")), w_no_models).
Proof.
  apply (no_model_files_no_script (env_with tool_ok) "/scores" "S1" w_no_models).
  reflexivity.
Defined.

Lemma synthesis_idempotent_witness :
  exists cfg w2,
    fst (read_cfg (env_with tool_ok) w_scores) = Ok cfg /\
    script_path (env_with tool_ok) = script_path (env_with tool_ok) /\
    fs_read (script_path (env_with tool_ok))
      (w_fs (snd (create_ett_score_script (env_with tool_ok) "/scores" "S1" w_scores)))
    = Ok (script_text "/scores" (default "plink2" (cfg !! "plink2"))
            (glob_ext "/scores" ".par" (w_fs w_scores))) /\
    create_ett_score_script (env_with tool_ok) "/scores" "S2"
      (snd (create_ett_score_script (env_with tool_ok) "/scores" "S1" w_scores))
    = (Ok (script_path (env_with tool_ok)), w2) /\
    w_fs w2
    = w_fs (snd (create_ett_score_script (env_with tool_ok) "/scores" "S1" w_scores)).
Proof.
  apply (synthesis_idempotent (env_with tool_ok) "/scores" "S1" "S2" w_scores
           (script_path (env_with tool_ok))
           (snd (create_ett_score_script (env_with tool_ok) "/scores" "S1" w_scores))).
  vm_compute. reflexivity.
Defined.

(** The script text is determined by the directory path, the listing of
    model files and the configuration file. *)
Lemma script_determined E dir sid w w' path path' w1 w1' :
  glob_ext dir ".par" (w_fs w) = glob_ext dir ".par" (w_fs w') ->
  fs_lookup (CONFIG_FILE E) (w_fs w) = fs_lookup (CONFIG_FILE E) (w_fs w') ->
  create_ett_score_script E dir sid w = (Ok path, w1) ->
  create_ett_score_script E dir sid w' = (Ok path', w1') ->
  path = path' /\ fs_read path (w_fs w1) = fs_read path' (w_fs w1').
Proof.
  intros Hg Hc H1 H2.
  destruct (create_inv _ _ _ _ _ _ H1) as (c1 & Hc1 & -> & _ & ->).
  destruct (create_inv _ _ _ _ _ _ H2) as (c2 & Hc2 & -> & _ & ->).
  split; [reflexivity|].
  rewrite read_cfg_eq in Hc1, Hc2. cbn [fst] in Hc1, Hc2.
  rewrite Hc, Hc2 in Hc1. inversion Hc1; subst c2.
  cbn [w_fs]. unfold fs_read. now rewrite !fs_lookup_set_eq, Hg.
Qed.

(** C3 at a model file whose name holds [.par] twice: the file is
    discovered, stripping its extension gives [height.part2], but the
    invocation written for it names the output [heightt2]. *)
Theorem output_name_drops_every_par :
  In "/scores/height.part2.par" (glob_ext "/scores" ".par" (w_fs w_scores)) /\
  strip_par_extension (basename "/scores/height.part2.par") = "height.part2" /\
  output_name_of "/scores/height.part2.par" = "heightt2" /\
  exists text,
    fs_read (script_path (env_with tool_ok))
      (w_fs (snd (create_ett_score_script (env_with tool_ok) "/scores" "S1" w_scores)))
    = Ok text /\
    str_contains (" --out " +:+ dq +:+ "$OUTPUT_DIR/heightt2" +:+ dq
                  +:+ " --score " +:+ dq +:+ "$PRS_SCORE_DIR/height.part2.par" +:+ dq)
                 text = true /\
    str_contains ("$OUTPUT_DIR/height.part2" +:+ dq) text = false.
Proof.
  split; [vm_compute; tauto|].
  split; [vm_compute; reflexivity|].
  split; [vm_compute; reflexivity|].
  eexists. split; [vm_compute; reflexivity|].
  split; vm_compute; reflexivity.
Qed.

End SynthesisFacts.

(** ** The orchestrator *)
Module PipelineFacts.
Import Py PyFacts Orchestration PipelineSpec Scenarios RunScenarios.
Import IndividualConversion.

Lemma bind_inv_ok {A B} (m : M A) (k : A -> M B) w b w' :
  bind m k w = (Ok b, w') ->
  exists a w1, m w = (Ok a, w1) /\ k a w1 = (Ok b, w').
Proof.
  unfold bind. destruct (m w) as [[a|e] w1]; [eauto | discriminate].
Qed.

Lemma load_cfg_eq E w : load_cfg E w = (Ok (cfg_of E (w_fs w)), w).
Proof.
  unfold load_cfg, cfg_of. step. unfold fs_exists.
  destruct (fs_lookup (CONFIG_FILE E) (w_fs w)) as [[|c x]|] eqn:Hc;
    [| | reflexivity].
  - unfold try_except, bind, read_file, bind, get_fs, fs_read. now rewrite Hc.
  - unfold try_except, bind, read_file, bind, get_fs, fs_read. rewrite Hc.
    unfold ret, lift_res. destruct (env_json_load E c); reflexivity.
Qed.

Lemma handlers_eq e w :
  exists l, handlers e w = (Ok (Failed e), with_out w [l]).
Proof. unfold handlers. destruct e; eexists; reflexivity. Qed.


Lemma run_eq E cmd cwd w :
  run E cmd cwd w
  = (match failure_of cmd (env_tool E cmd cwd (w_fs w)) with
     | Some e => Raise e
     | None => Ok tt
     end, run_world E cmd cwd w).
Proof.
  unfold run, run_world. do 3 step. cbn [w_fs w_out w_err w_calls].
  destruct (env_tool E cmd cwd (w_fs w)) as [c fs'|e]; [|reflexivity].
  step. cbn [failure_of fs_after]. destruct (c =? 0)%Z; reflexivity.
Qed.

Lemma makedirs_eq p w :
  makedirs p w
  = match fs_makedirs p (w_fs w) with
    | Ok fs' => (Ok tt, World fs' (w_out w) (w_err w) (w_calls w))
    | Raise e => (Raise e, w)
    end.
Proof.
  unfold makedirs, lift_fs. step.
  destruct (fs_makedirs p (w_fs w)); reflexivity.
Qed.

Lemma file_structure_pipeline E sid w :
  match setup_fs_pipeline E sid (w_fs w) with
  | Ok fs1 =>
      PrsPipeline.file_structure E sid w
      = (Ok tt, World fs1 (w_out w) (w_err w) (w_calls w))
  | Raise e => exists w', PrsPipeline.file_structure E sid w = (Raise e, w')
  end.
Proof.
  unfold setup_fs_pipeline, PrsPipeline.file_structure, bind.
  rewrite makedirs_eq.
  destruct (fs_makedirs (vcf_dir_of E sid) (w_fs w)) as [fs1|e]; cbn [res_bind]; [|eauto].
  rewrite makedirs_eq. cbn [w_fs w_out w_err w_calls].
  destruct (fs_makedirs (prs_dir_of E sid) fs1) as [fs2|e]; cbn [res_bind]; [|eauto].
  rewrite makedirs_eq. cbn [w_fs w_out w_err w_calls].
  destruct (fs_makedirs (ancestry_dir E) fs2) as [fs3|e]; eauto.
Qed.

Lemma falsy_some s : falsy (Some s) = false -> s <> EmptyString.
Proof. simpl. intros H ->. discriminate. Qed.

Lemma step0_ok vcf w :
  fs_exists vcf (w_fs w) = true -> step0_validate vcf w = (Ok tt, w).
Proof. intros H. unfold step0_validate. step. now rewrite H. Qed.

(** C8: when the import stage (stage 1) fails, be it by a non-zero exit or
    because the program cannot be spawned, the run ends as [Failed] with that
    failure as its cause, and the import command is the only subprocess the
    run has spawned: no later stage executes. *)
Theorem import_failure_aborts E vcf sid ph sx ag w fs1 cause :
  let plink_bin := plink_bin_of E (w_fs w) in
  let cmd := import_cmd plink_bin vcf (out_prefix_of E sid) in
  falsy (Some vcf) = false ->
  falsy (Some sid) = false ->
  setup_fs_pipeline E sid (w_fs w) = Ok fs1 ->
  fs_exists vcf fs1 = true ->
  failure_of cmd (env_tool E cmd None fs1) = Some cause ->
  exists w',
    PrsPipeline.run_pipeline_cli E (Some vcf) (Some sid) ph sx ag w
    = (Ok (Failed cause), w') /\
    w_calls w' = (w_calls w ++ [Call cmd None])%list /\
    w_fs w' = fs_after (env_tool E cmd None fs1) fs1.
Proof.
  intros plink_bin cmd Hv Hs Hsetup Hvcf Hfail.
  unfold PrsPipeline.run_pipeline_cli.
  erewrite bind_ok by apply load_cfg_eq.
  rewrite Hv, Hs. cbn [orb default from_option id].
  step.
  pose proof (file_structure_pipeline E sid
                (World (w_fs w) (w_out w ++ ["Pipeline başlıyor... " +:+ sid])
                       (w_err w) (w_calls w))) as Hfs.
  cbn [w_fs w_out w_err w_calls] in Hfs. rewrite Hsetup in Hfs.
  erewrite bind_ok by exact Hfs.
  unfold try_except.
  erewrite bind_raise.
  2:{ unfold PrsPipeline.pipeline_body.
      erewrite bind_ok by (apply step0_ok; exact Hvcf).
      step. erewrite bind_raise; [reflexivity|].
      unfold step1_import. rewrite run_eq. cbn [w_fs].
      unfold cmd, plink_bin, plink_bin_of in Hfail. rewrite Hfail.
      reflexivity. }
  match goal with |- context [handlers cause ?w0] =>
    destruct (handlers_eq cause w0) as [l ->] end.
  eexists. split; [reflexivity|]. split; reflexivity.
Qed.

Lemma file_structure_gui E sid w :
  match setup_fs_gui E sid (w_fs w) with
  | Ok fs1 =>
      PrsGui.file_structure E sid w
      = (Ok tt, World fs1 (w_out w) (w_err w) (w_calls w))
  | Raise e => exists w', PrsGui.file_structure E sid w = (Raise e, w')
  end.
Proof.
  unfold setup_fs_gui, setup_fs_pipeline, PrsGui.file_structure, bind.
  rewrite makedirs_eq.
  destruct (fs_makedirs (vcf_dir_of E sid) (w_fs w)) as [fs1|e]; cbn [res_bind]; [|eauto].
  rewrite makedirs_eq. cbn [w_fs w_out w_err w_calls].
  destruct (fs_makedirs (prs_dir_of E sid) fs1) as [fs2|e]; cbn [res_bind]; [|eauto].
  rewrite makedirs_eq. cbn [w_fs w_out w_err w_calls].
  destruct (fs_makedirs (ancestry_dir E) fs2) as [fs3|e]; cbn [res_bind]; [|eauto].
  rewrite makedirs_eq. cbn [w_fs w_out w_err w_calls].
  destruct (fs_makedirs (prs_scripts_dir E) fs3) as [fs4|e]; cbn [res_bind]; [|eauto].
  rewrite makedirs_eq. cbn [w_fs w_out w_err w_calls].
  destruct (fs_makedirs (prs_files_dir E) fs4) as [fs5|e]; eauto.
Qed.

Lemma step7_gui_caught E dk w6 e w7 :
  run E (ancestry_cmd E dk (ancestry_dir E) "python") None w6 = (Raise e, w7) ->
  PrsGui.step7_ancestry E dk w6 = (Ok tt, with_out w7 [ancestry_warning e]).
Proof.
  intros H. unfold PrsGui.step7_ancestry, try_except. rewrite H. reflexivity.
Qed.

(** In [prs_gui.py] stage 7 returns normally whatever the estimator does,
    and spawns exactly the one command. *)
Lemma step7_gui_returns E dk w :
  exists w',
    PrsGui.step7_ancestry E dk w = (Ok tt, w') /\
    w_calls w' = (w_calls w ++ [Call (ancestry_cmd E dk (ancestry_dir E) "python") None])%list.
Proof.
  unfold PrsGui.step7_ancestry, try_except. rewrite run_eq.
  destruct (failure_of _ _); eexists; split; reflexivity.
Qed.

(** C2, amended: in [prs_gui.py], when the stages up to the hand-off have
    succeeded and the ancestry command fails, stage 7 returns normally with
    the failure printed as a warning, stages 8 and 9 are executed from there,
    and when they raise nothing the run reaches [Completed]. *)
Theorem ancestry_failure_is_not_fatal E vcf sid dir ph sx ag w fs1 w6 e w7 w9 :
  let plink_bin := plink_bin_of E (w_fs w) in
  let plink2_bin := plink2_bin_of E (w_fs w) in
  let docker_bin := docker_bin_of E (w_fs w) in
  falsy (Some vcf) = false ->
  falsy (Some sid) = false ->
  falsy (Some dir) = false ->
  fs_exists dir (w_fs w) = true ->
  setup_fs_gui E sid (w_fs w) = Ok fs1 ->
  PrsGui.required_stages E vcf sid dir plink_bin plink2_bin docker_bin
    (start_world_gui sid dir w fs1) = (Ok tt, w6) ->
  run E (ancestry_cmd E docker_bin (ancestry_dir E) "python") None w6 = (Raise e, w7) ->
  PrsGui.closing_stages E sid (with_out w7 [ancestry_warning e]) = (Ok tt, w9) ->
  PrsGui.step7_ancestry E docker_bin w6 = (Ok tt, with_out w7 [ancestry_warning e]) /\
  PrsGui.run_pipeline_cli E (Some vcf) (Some sid) ph sx ag (Some dir) w
  = (Ok Completed, w9).
Proof.
  intros plink_bin plink2_bin docker_bin Hv Hs Hd Hex Hsetup Hreq Hanc Hclose.
  split; [now apply step7_gui_caught|].
  unfold PrsGui.run_pipeline_cli.
  erewrite bind_ok by apply load_cfg_eq.
  rewrite Hd, Hv, Hs. cbn [orb default from_option id].
  step. rewrite Hex. apply falsy_some, String.eqb_neq in Hd. rewrite Hd.
  cbn [orb negb].
  do 2 step.
  pose proof (file_structure_gui E sid
                (World (w_fs w)
                   ((w_out w ++ ["Pipeline başlıyor... " +:+ sid]) ++
                    ["Using PRS score directory: " +:+ dir])
                   (w_err w) (w_calls w))) as Hfs.
  cbn [w_fs w_out w_err w_calls] in Hfs. rewrite Hsetup in Hfs.
  erewrite bind_ok by exact Hfs.
  unfold try_except, PrsGui.pipeline_body.
  unfold start_world_gui in Hreq.
  rewrite <- app_assoc. cbn [app].
  erewrite bind_ok; [reflexivity|].
  erewrite bind_ok by exact Hreq.
  erewrite bind_ok by (apply step7_gui_caught; exact Hanc).
  exact Hclose.
Qed.










(** X18: in [prs_pipeline.py] stage 7 has no handler of its own: when the stages
    before it have succeeded and the ancestry command fails, the guarded
    block ends there, with the failure as the cause of the run. *)
Lemma pipeline_ancestry_failure_is_fatal
    E vcf sid plink_bin plink2_bin docker_bin w1 w6 e w7 :
  pipeline_stages_to_handoff E vcf sid plink_bin plink2_bin docker_bin w1 = (Ok tt, w6) ->
  PrsPipeline.step7_ancestry E docker_bin w6 = (Raise e, w7) ->
  exists l,
    try_except
      (bind (PrsPipeline.pipeline_body E vcf sid plink_bin plink2_bin docker_bin)
            (fun _ => ret Completed))
      handlers w1
    = (Ok (Failed e), with_out w7 [l]).
Proof.
  intros Hpre H7. unfold pipeline_stages_to_handoff in Hpre.
  apply bind_inv_ok in Hpre as ([] & wa & H0 & Hpre).
  apply bind_inv_ok in Hpre as ([] & wb & Hp & Hpre).
  apply bind_inv_ok in Hpre as ([] & wc & Hs1 & Hpre).
  apply bind_inv_ok in Hpre as ([] & wd & Hs2 & Hpre).
  apply bind_inv_ok in Hpre as ([] & we & Hs3 & Hpre).
  apply bind_inv_ok in Hpre as ([] & wf & Hs4 & Hpre).
  apply bind_inv_ok in Hpre as ([] & wg & Hs5 & Hs6).
  destruct (handlers_eq e w7) as [l Hl]. exists l.
  unfold try_except.
  erewrite bind_raise; [exact Hl|].
  unfold PrsPipeline.pipeline_body.
  erewrite bind_ok by exact H0. erewrite bind_ok by exact Hp.
  erewrite bind_ok by exact Hs1. erewrite bind_ok by exact Hs2.
  erewrite bind_ok by exact Hs3. erewrite bind_ok by exact Hs4.
  erewrite bind_ok by exact Hs5. erewrite bind_ok by exact Hs6.
  erewrite bind_raise by exact H7. reflexivity.
Qed.



Lemma import_failure_witness :
  exists w',
    PrsPipeline.run_pipeline_cli env_import_fails (Some vcf0) (Some "S1")
      None None None w_vcf
    = (Ok (Failed (CalledProcessError 1 cmd_import)), w') /\
    w_calls w' = (w_calls w_vcf ++ [Call cmd_import None])%list /\
    w_fs w' = fs_after (env_tool env_import_fails cmd_import None fs1_import) fs1_import.
Proof.
  apply (import_failure_aborts env_import_fails vcf0 "S1" None None None w_vcf
           fs1_import (CalledProcessError 1 cmd_import)).
  - reflexivity.
  - reflexivity.
  - vm_compute. reflexivity.
  - vm_compute. reflexivity.
  - vm_compute. reflexivity.
Defined.

(** C2, as stated, fails.  In [prs_gui.py], with the required stages
    succeeding and the ancestry command failing, a failing ancestry parser
    ends the run as [Failed] and the report stage never starts.  In
    [prs_pipeline.py] the failing ancestry command itself ends the run as
    [Failed]; stages 8 and 9 never start. *)
Lemma ancestry_failure_can_still_end_failed :
  (let r := PrsGui.run_pipeline_cli (env_with tool_docker_and_parser_fail)
              (Some vcf0) (Some "S1") None None None (Some "/scores") w_scores in
   programs (snd r)
   = ["plink"; "plink2"; "bash"; "plink"; "python3"; "docker"; "python"] /\
   fst r = Ok (Failed (CalledProcessError 1 parse_cmd))) /\
  (let r := PrsPipeline.run_pipeline_cli env_docker_fails
              (Some vcf0) (Some "S1") None None None w_installed in
   programs (snd r) = ["plink"; "plink2"; "bash"; "plink"; "python3"; "docker"] /\
   exists cmd, fst r = Ok (Failed (CalledProcessError 125 cmd))
               /\ hd EmptyString cmd = "docker").
Proof.
  split.
  - split; vm_compute; reflexivity.
  - split; [vm_compute; reflexivity|].
    eexists. split; vm_compute; reflexivity.
Qed.

Lemma ancestry_failure_witness :
  PrsGui.step7_ancestry env_docker_fails
    (docker_bin_of env_docker_fails (w_fs w_scores_bare)) gui_w6
  = (Ok tt, with_out gui_w7
              [ancestry_warning (CalledProcessError 125 gui_ancestry_cmd)]) /\
  PrsGui.run_pipeline_cli env_docker_fails (Some vcf0) (Some "S1") None None None
    (Some "/scores") w_scores_bare
  = (Ok Completed, gui_w9).
Proof.
  apply (ancestry_failure_is_not_fatal env_docker_fails vcf0 "S1" "/scores"
           None None None w_scores_bare gui_fs1 gui_w6
           (CalledProcessError 125 gui_ancestry_cmd) gui_w7 gui_w9).
  - reflexivity.
  - reflexivity.
  - reflexivity.
  - reflexivity.
  - vm_compute. reflexivity.
  - vm_compute. reflexivity.
  - vm_compute. reflexivity.
  - vm_compute. reflexivity.
Defined.


End PipelineFacts.

(** ** The converter: what a run leaves behind *)
Module ConversionEffects.
Import Py PyFacts IndividualConversion Tables Scenarios ConversionFacts.
Import Effects MoreScenarios.

Lemma write_file_mode p c w :
  fs_lookup p (w_fs w) <> Some Dir ->
  write_file p c w
  = (Ok tt, World (fs_set p (File c (mode_at p (w_fs w))) (w_fs w))
              (w_out w) (w_err w) (w_calls w)).
Proof.
  intros H. unfold write_file, lift_fs, bind, get_fs, fs_write, put_fs, mode_at.
  destruct (fs_lookup p (w_fs w)) as [[|c' x]|]; [congruence | reflexivity | reflexivity].
Qed.

Lemma convert_body_fs E w raw_text x df :
  fs_lookup raw_file (w_fs w) = Some (File raw_text x) ->
  env_read_table E raw_text = Ok df ->
  valid_table df = true ->
  metadata_usable E (w_fs w) ->
  targets_writable (w_fs w) ->
  exists w',
    convert_body E w = (Ok true, w') /\
    w_fs w' = converted_fs df (w_fs w) /\
    w_err w' = w_err w /\ w_calls w' = w_calls w.
Proof.
  intros Hraw Hread Hvalid Hbim [Hout Hsum].
  unfold valid_table in Hvalid.
  apply andb_prop in Hvalid as [Hvalid Hrows].
  apply andb_prop in Hvalid as [Hcols Hclean].
  destruct (body_ok df _ Hrows) as (body & Hbody & _).
  assert (Hiid : str_mem "IID" (columns df) = true).
  { simpl in Hcols. apply andb_prop in Hcols as [_ Hcols].
    now apply andb_prop in Hcols as [Hcols _]. }
  destruct (iids_ok df (rows df) Hiid) as [iids Hiids].
  unfold convert_body.
  step. unfold fs_exists. rewrite Hraw. cbn [negb].
  step.
  erewrite bind_ok;
    [| unfold read_table; erewrite bind_ok by (eapply read_file_ok; eassumption);
       rewrite Hread; reflexivity ].
  step.
  rewrite (select_columns_ok _ _ Hcols). step.
  step. cbn [w_fs w_out w_err w_calls].
  match goal with |- context [bind (load_bim E) _ ?w0] =>
    destruct (load_bim_ok E w0 Hbim) as (bd & l & Hload & Hl) end.
  cbn [w_fs w_out w_err w_calls] in Hload, Hl.
  erewrite bind_ok by exact Hload.
  unfold output_lines_of. rewrite Hbody. cbn [res_bind].
  rewrite header_parts_of_eq.
  step.
  erewrite bind_ok by (apply write_file_mode; exact Hout).
  cbn [w_fs w_out w_err w_calls].
  do 4 step. rewrite Hiids. step. cbn [w_fs w_out w_err w_calls].
  erewrite bind_ok.
  2:{ apply write_file_mode. cbn [w_fs].
      rewrite fs_lookup_set_ne by discriminate. exact Hsum. }
  eexists. split; [reflexivity|]. cbn [w_fs w_out w_err w_calls].
  split; [|split; reflexivity].
  unfold converted_fs, expected_output, expected_summary, expected_body.
  rewrite Hbody, Hiids. cbn [res_default].
  unfold mode_at at 1. rewrite fs_lookup_set_ne by discriminate.
  reflexivity.
Qed.

Lemma convert_genotypes_fs E w raw_text x df :
  fs_lookup raw_file (w_fs w) = Some (File raw_text x) ->
  env_read_table E raw_text = Ok df ->
  valid_table df = true ->
  metadata_usable E (w_fs w) ->
  targets_writable (w_fs w) ->
  exists w',
    convert_genotypes E w = (Ok true, w') /\
    w_fs w' = converted_fs df (w_fs w) /\
    w_err w' = w_err w /\ w_calls w' = w_calls w.
Proof.
  intros Hraw Hread Hvalid Hbim Hwr.
  unfold convert_genotypes. do 2 step.
  match goal with |- context [try_except _ _ ?w0] =>
    destruct (convert_body_fs E w0 raw_text x df) as (w' & Hb & Hf & He & Hc)
  end; auto.
  exists w'. unfold try_except. rewrite Hb. auto.
Qed.


Lemma converted_fs_output df fs :
  fs_lookup output_file (converted_fs df fs)
  = Some (File (expected_output df) (mode_at output_file fs)).
Proof.
  unfold converted_fs. rewrite fs_lookup_set_ne by discriminate.
  apply fs_lookup_set_eq.
Qed.

Lemma converted_fs_summary df fs :
  fs_lookup summary_file (converted_fs df fs)
  = Some (File (expected_summary df) (mode_at summary_file fs)).
Proof. unfold converted_fs. apply fs_lookup_set_eq. Qed.




(** X2: the metadata file has no influence on the results: two runs on
    the same table, with whatever metadata each finds or does not find,
    write the same output and the same summary. *)
Theorem metadata_does_not_change_output E w w' raw_text x x' df :
  fs_lookup raw_file (w_fs w) = Some (File raw_text x) ->
  fs_lookup raw_file (w_fs w') = Some (File raw_text x') ->
  env_read_table E raw_text = Ok df ->
  valid_table df = true ->
  metadata_usable E (w_fs w) -> metadata_usable E (w_fs w') ->
  targets_writable (w_fs w) -> targets_writable (w_fs w') ->
  exists w1 w1',
    convert_genotypes E w = (Ok true, w1) /\
    convert_genotypes E w' = (Ok true, w1') /\
    fs_read output_file (w_fs w1) = fs_read output_file (w_fs w1') /\
    fs_read summary_file (w_fs w1) = fs_read summary_file (w_fs w1').
Proof.
  intros Hraw Hraw' Hread Hvalid Hb Hb' Hw Hw'.
  destruct (convert_genotypes_fs E w raw_text x df) as (w1 & H1 & Hf1 & _ & _); auto.
  destruct (convert_genotypes_fs E w' raw_text x' df) as (w1' & H1' & Hf1' & _ & _); auto.
  exists w1, w1'. repeat split; auto; unfold fs_read; rewrite Hf1, Hf1'.
  - now rewrite !converted_fs_output.
  - now rewrite !converted_fs_summary.
Qed.













Lemma select_columns_missing df cols :
  forallb (fun c => str_mem c (columns df)) cols = false ->
  exists msg, select_columns df cols = Raise (KeyError msg).
Proof.
  intros H. unfold select_columns.
  destruct (List.filter (fun c => negb (str_mem c (columns df))) cols) eqn:Hf; [|eauto].
  exfalso.
  assert (Hall : forallb (fun c => str_mem c (columns df)) cols = true).
  { apply forallb_forall. intros c Hc.
    destruct (str_mem c (columns df)) eqn:Hm; [reflexivity|].
    assert (Hin : In c (List.filter (fun c => negb (str_mem c (columns df))) cols)).
    { apply filter_In. split; [exact Hc|]. now rewrite Hm. }
    rewrite Hf in Hin. contradiction. }
  congruence.
Qed.

(** X4: a table that lacks one of the six identity columns makes the
    conversion fail with a [KeyError], traced to standard error, and nothing
    is written. *)
Theorem missing_identity_column_fails E w raw_text x df :
  fs_lookup raw_file (w_fs w) = Some (File raw_text x) ->
  env_read_table E raw_text = Ok df ->
  forallb (fun c => str_mem c (columns df)) sample_cols = false ->
  exists msg w',
    convert_genotypes E w = (Ok false, w') /\
    w_err w' = (w_err w ++ [KeyError msg])%list /\
    w_fs w' = w_fs w.
Proof.
  intros Hraw Hread Hmiss.
  destruct (select_columns_missing _ _ Hmiss) as [msg Hsel]. exists msg.
  unfold convert_genotypes. do 2 step. unfold try_except.
  match goal with |- context [convert_body E ?w0] =>
    assert (Hb : exists w1, convert_body E w0 = (Raise (KeyError msg), w1)
                            /\ w_fs w1 = w_fs w /\ w_err w1 = w_err w)
  end.
  { unfold convert_body. step. unfold fs_exists. cbn [w_fs]. rewrite Hraw. cbn [negb].
    step.
    erewrite bind_ok;
      [| unfold read_table; erewrite bind_ok by (eapply read_file_ok; eassumption);
         rewrite Hread; reflexivity ].
    step. rewrite Hsel. erewrite bind_raise by reflexivity.
    eexists. split; [reflexivity|]. split; reflexivity. }
  destruct Hb as (w1 & -> & Hfs & Herr).
  do 2 step. eexists. split; [reflexivity|].
  cbn [w_fs w_err]. rewrite Hfs, Herr. split; reflexivity.
Qed.








Lemma metadata_does_not_change_output_witness :
  exists w1 w1',
    convert_genotypes (env_with tool_ok) (w_raw raw_two_variants) = (Ok true, w1) /\
    convert_genotypes (env_with tool_ok) w_raw_bim = (Ok true, w1') /\
    fs_read output_file (w_fs w1) = fs_read output_file (w_fs w1') /\
    fs_read summary_file (w_fs w1) = fs_read summary_file (w_fs w1').
Proof.
  apply (metadata_does_not_change_output (env_with tool_ok)
           (w_raw raw_two_variants) w_raw_bim raw_two_variants false false df_two_variants).
  - reflexivity.
  - reflexivity.
  - vm_compute. reflexivity.
  - vm_compute. reflexivity.
  - left. reflexivity.
  - right. do 3 eexists. split; [reflexivity | vm_compute; reflexivity].
  - split; discriminate.
  - split; discriminate.
Defined.


Lemma missing_identity_column_witness :
  exists msg w',
    convert_genotypes (env_with tool_ok) (w_raw raw_short_prefix) = (Ok false, w') /\
    w_err w' = ([] ++ [KeyError msg])%list /\
    w_fs w' = w_fs (w_raw raw_short_prefix).
Proof.
  apply (missing_identity_column_fails (env_with tool_ok) (w_raw raw_short_prefix)
           raw_short_prefix false df_short_prefix).
  - reflexivity.
  - vm_compute. reflexivity.
  - vm_compute. reflexivity.
Defined.



(** *** The process as a whole *)
Import PipelineFacts.






End ConversionEffects.

(** ** The score-script synthesizer: names, frame and configuration *)
Module SynthesisEffects.
Import Py PyFacts Orchestration PrsGui Tables Scenarios SynthesisFacts.
Import PipelineSpec PipelineFacts Effects MoreScenarios.

Lemma str_prefix_app_iff p s : String.prefix p s = true <-> exists r, s = p +:+ r.
Proof.
  revert s. induction p as [|a p IH]; intros s.
  - split; [eauto | intros _; destruct s; reflexivity].
  - destruct s as [|b s]; simpl.
    + split; [discriminate | intros [r Hr]; discriminate].
    + destruct (Ascii.ascii_dec a b) as [->|Hne].
      * rewrite IH. split; intros [r Hr]; exists r.
        -- now rewrite Hr.
        -- change (String b p +:+ r) with (String b (p +:+ r)) in Hr.
           now inversion Hr.
      * split; [discriminate|]. intros [r Hr].
        change (String a p +:+ r) with (String a (p +:+ r)) in Hr.
        inversion Hr. congruence.
Qed.

Lemma par_prefix_of_extended c s :
  String.prefix ".par" (String c s) = false ->
  String.prefix ".par" (String c (s +:+ ".par")) = false.
Proof.
  intros H. destruct (String.prefix ".par" (String c (s +:+ ".par"))) eqn:Hp;
    [|reflexivity].
  exfalso. apply str_prefix_app_iff in Hp as [r Hr].
  assert (Hfalse : String.prefix ".par" (String c s) = true); [|congruence].
  change (".par" +:+ r)
    with (String (Ascii.ascii_of_nat 46) (String (Ascii.ascii_of_nat 112)
            (String (Ascii.ascii_of_nat 97) (String (Ascii.ascii_of_nat 114) r)))) in Hr.
  inversion Hr as [[Hc Hs]]. clear Hr.
  destruct s as [|a1 s]; [discriminate Hs|].
  change (String a1 s +:+ ".par") with (String a1 (s +:+ ".par")) in Hs.
  inversion Hs as [[Ha1 Hs1]]. clear Hs.
  destruct s as [|a2 s]; [discriminate Hs1|].
  change (String a2 s +:+ ".par") with (String a2 (s +:+ ".par")) in Hs1.
  inversion Hs1 as [[Ha2 Hs2]]. clear Hs1.
  destruct s as [|a3 s]; [discriminate Hs2|].
  change (String a3 s +:+ ".par") with (String a3 (s +:+ ".par")) in Hs2.
  inversion Hs2 as [[Ha3 Hs3]].
  apply str_prefix_app_iff. exists s. reflexivity.
Qed.

Lemma replace_extension stem :
  str_contains ".par" stem = false ->
  str_replace ".par" EmptyString (stem +:+ ".par") = stem.
Proof.
  unfold str_replace. induction stem as [|c s IH]; [reflexivity|].
  cbn [str_contains]. intros H. apply orb_false_elim in H as [Hp Hc].
  change (String c s +:+ ".par") with (String c (s +:+ ".par")).
  cbn [replace_go]. rewrite (par_prefix_of_extended _ _ Hp).
  now rewrite (IH Hc).
Qed.

Lemma last_split_app c s t d :
  List.last (split_chr c (s +:+ String c t)) d = List.last (split_chr c t) d.
Proof.
  induction s as [|a s IH].
  - change (EmptyString +:+ String c t) with (String c t).
    cbn [split_chr]. rewrite Ascii.eqb_refl.
    pose proof (split_chr_nonempty c t).
    destruct (split_chr c t); [congruence | reflexivity].
  - change (String a s +:+ String c t) with (String a (s +:+ String c t)).
    cbn [split_chr].
    assert (Hlen : (2 <= length (split_chr c (s +:+ String c t)))%nat).
    { apply split_chr_length_ge2. clear. induction s as [|b s IH].
      - simpl. now rewrite Ascii.eqb_refl.
      - change (String b s +:+ String c t) with (String b (s +:+ String c t)).
        simpl. now rewrite IH, orb_true_r. }
    destruct (Ascii.eqb a c).
    + rewrite <- IH. destruct (split_chr c (s +:+ String c t)); [simpl in Hlen; lia|].
      reflexivity.
    + rewrite <- IH.
      destruct (split_chr c (s +:+ String c t)) as [|x [|y l]];
        [simpl in Hlen; lia | simpl in Hlen; lia | reflexivity].
Qed.

Lemma ends_with_app suf s :
  ends_with suf s = true -> exists pre, s = pre +:+ suf.
Proof.
  induction s as [|a s IH]; cbn [ends_with].
  - rewrite orb_false_r. intros H. apply String.eqb_eq in H. exists EmptyString.
    now subst.
  - intros H. apply orb_prop in H as [H | H].
    + apply String.eqb_eq in H. exists EmptyString. now subst.
    + destruct (IH H) as [pre ->]. exists (String a pre). reflexivity.
Qed.

Lemma ends_with_suffix pre suf : ends_with suf (pre +:+ suf) = true.
Proof.
  induction pre as [|a pre IH].
  - change (EmptyString +:+ suf) with suf. destruct suf; cbn [ends_with];
      now rewrite String.eqb_refl.
  - change (String a pre +:+ suf) with (String a (pre +:+ suf)).
    cbn [ends_with]. now rewrite IH, orb_true_r.
Qed.

(** The directory part of a glob pattern is empty or ends in a slash. *)
Lemma dir_prefix_shape d :
  dir_prefix d = EmptyString \/ exists pre, dir_prefix d = pre +:+ "/".
Proof.
  unfold dir_prefix, path_join. cbn [String.prefix].
  destruct (String.eqb d EmptyString) eqn:Hd; cbn [orb].
  - apply String.eqb_eq in Hd. subst d. now left.
  - rewrite append_nil_r.
    destruct (ends_with "/" d) eqn:He.
    + right. now apply ends_with_app.
    + right. exists d. reflexivity.
Qed.

Lemma basename_in_dir d name :
  chr_in slash_chr name = false -> basename (dir_prefix d +:+ name) = name.
Proof.
  intros H. unfold basename.
  destruct (dir_prefix_shape d) as [-> | [pre ->]].
  - change (EmptyString +:+ name) with name. now rewrite split_chr_free.
  - rewrite append_assoc. change ("/" +:+ name) with (String slash_chr name).
    rewrite last_split_app. now rewrite split_chr_free.
Qed.

Lemma strip_prefix_self p s : strip_prefix p (p +:+ s) = Some s.
Proof.
  induction p as [|a p IH]; [destruct s; reflexivity|].
  change (String a p +:+ s) with (String a (p +:+ s)).
  cbn [strip_prefix]. now rewrite Ascii.eqb_refl.
Qed.

Lemma substring_prefix s t : String.substring 0 (String.length s) (s +:+ t) = s.
Proof.
  induction s as [|a s IH]; [destruct t; reflexivity|].
  change (String a s +:+ t) with (String a (s +:+ t)).
  cbn [String.length String.substring]. now rewrite IH.
Qed.

Lemma str_length_app s t : String.length (s +:+ t) = (String.length s + String.length t)%nat.
Proof.
  induction s as [|a s IH]; [reflexivity|].
  change (String a s +:+ t) with (String a (s +:+ t)).
  cbn [String.length]. now rewrite IH.
Qed.

Lemma strip_par_extension_app stem : strip_par_extension (stem +:+ ".par") = stem.
Proof.
  unfold strip_par_extension. rewrite ends_with_suffix, str_length_app.
  replace (String.length stem + String.length ".par" - 4)%nat with (String.length stem)
    by (simpl; lia).
  apply substring_prefix.
Qed.

Lemma chr_in_app_l c s t : chr_in c (s +:+ t) = false -> chr_in c s = false.
Proof.
  induction s as [|a s IH]; [reflexivity|].
  change (String a s +:+ t) with (String a (s +:+ t)). cbn [chr_in].
  intros H. apply orb_false_elim in H as [Ha Hs]. now rewrite Ha, IH.
Qed.

(** X8: for a discovered model file [stem.par] whose stem does not
    itself contain [.par], the output name is the stem, that is the file
    name with its extension stripped, and the invocation written for it
    scores the file [stem.par] into [$OUTPUT_DIR/stem]. *)
Theorem extension_stripped_when_par_occurs_once d fs plink2_bin stem :
  In (dir_prefix d +:+ stem +:+ ".par") (glob_ext d ".par" fs) ->
  str_contains ".par" stem = false ->
  let par_file := dir_prefix d +:+ stem +:+ ".par" in
  basename par_file = stem +:+ ".par" /\
  output_name_of par_file = stem /\
  output_name_of par_file = strip_par_extension (basename par_file) /\
  score_command plink2_bin par_file
  = plink2_bin +:+ " --bfile " +:+ dq +:+ "$INPUT_PREFIX" +:+ dq
    +:+ " --out " +:+ dq +:+ "$OUTPUT_DIR/" +:+ stem +:+ dq
    +:+ " --score " +:+ dq +:+ "$PRS_SCORE_DIR/" +:+ (stem +:+ ".par") +:+ dq
    +:+ " 1 2 4 header cols=+scoresums no-mean-imputation".
Proof.
  intros Hin Honce par_file.
  assert (Hslash : chr_in slash_chr (stem +:+ ".par") = false).
  { unfold glob_ext in Hin. apply filter_In in Hin as [_ Hm].
    unfold glob_match in Hm. rewrite strip_prefix_self in Hm.
    unfold glob_name_ok in Hm. apply andb_prop in Hm as [Hm _].
    apply andb_prop in Hm as [Hm _]. now apply negb_true_iff in Hm. }
  assert (Hbase : basename par_file = stem +:+ ".par")
    by (apply basename_in_dir; exact Hslash).
  assert (Hout : output_name_of par_file = stem).
  { unfold output_name_of. rewrite Hbase. now apply replace_extension. }
  split; [exact Hbase|]. split; [exact Hout|].
  split; [now rewrite Hout, Hbase, strip_par_extension_app|].
  unfold score_command. now rewrite Hout, Hbase.
Qed.

(** X9: a successful synthesis leaves an executable file at the script
    path, changes no other path, spawns nothing and prints one line. *)
Theorem synthesis_touches_only_the_script E dir sid w path w1 :
  create_ett_score_script E dir sid w = (Ok path, w1) ->
  (exists text, fs_lookup path (w_fs w1) = Some (File text true)) /\
  (forall p, p <> path -> fs_lookup p (w_fs w1) = fs_lookup p (w_fs w)) /\
  w_calls w1 = w_calls w /\
  w_out w1 = (w_out w ++ ["Created ETT_score_2.sh at " +:+ path])%list.
Proof.
  intros H. destruct (create_inv _ _ _ _ _ _ H) as (cfg & _ & -> & _ & ->).
  cbn [w_fs w_calls w_out]. split; [|split; [|split; reflexivity]].
  - eexists. apply fs_lookup_set_eq.
  - intros p Hp. apply fs_lookup_set_ne. congruence.
Qed.

(** X10: the script does not depend on the sample: runs for two samples
    that find the same model files and the same configuration file write
    the same text at the same path. *)
Theorem script_ignores_sample_id E dir sid sid' w w' path path' w1 w1' :
  glob_ext dir ".par" (w_fs w) = glob_ext dir ".par" (w_fs w') ->
  fs_lookup (CONFIG_FILE E) (w_fs w) = fs_lookup (CONFIG_FILE E) (w_fs w') ->
  create_ett_score_script E dir sid w = (Ok path, w1) ->
  create_ett_score_script E dir sid' w' = (Ok path', w1') ->
  path = path' /\ fs_read path (w_fs w1) = fs_read path' (w_fs w1').
Proof.
  intros Hg Hc H1 H2.
  destruct (create_inv _ _ _ _ _ _ H1) as (c1 & Hc1 & -> & _ & ->).
  destruct (create_inv _ _ _ _ _ _ H2) as (c2 & Hc2 & -> & _ & ->).
  split; [reflexivity|].
  rewrite read_cfg_eq in Hc1, Hc2. cbn [fst] in Hc1, Hc2.
  rewrite Hc, Hc2 in Hc1. inversion Hc1; subst c2.
  cbn [w_fs]. unfold fs_read. now rewrite !fs_lookup_set_eq, Hg.
Qed.

(** X11: a configuration file that does not load is tolerated by
    [run_pipeline_cli], which falls back to the empty configuration, but not
    by the synthesizer: with model files present it raises the loading
    error and writes nothing. *)
Theorem unreadable_config_fails_synthesis E dir sid w c x e :
  fs_lookup (CONFIG_FILE E) (w_fs w) = Some (File c x) ->
  env_json_load E c = Raise e ->
  glob_ext dir ".par" (w_fs w) <> [] ->
  load_cfg E w = (Ok ∅, w) /\
  create_ett_score_script E dir sid w = (Raise e, w).
Proof.
  intros Hc He Hg. split.
  - rewrite load_cfg_eq. unfold cfg_of. now rewrite Hc, He.
  - rewrite create_unfold.
    destruct (glob_ext dir ".par" (w_fs w)); [congruence|].
    rewrite read_cfg_eq. cbn [fst]. now rewrite Hc, He.
Qed.

Lemma extension_stripped_witness :
  let par_file := dir_prefix "/scores" +:+ "a" +:+ ".par" in
  basename par_file = "a" +:+ ".par" /\
  output_name_of par_file = "a" /\
  output_name_of par_file = strip_par_extension (basename par_file) /\
  score_command "plink2" par_file
  = "plink2" +:+ " --bfile " +:+ dq +:+ "$INPUT_PREFIX" +:+ dq
    +:+ " --out " +:+ dq +:+ "$OUTPUT_DIR/" +:+ "a" +:+ dq
    +:+ " --score " +:+ dq +:+ "$PRS_SCORE_DIR/" +:+ ("a" +:+ ".par") +:+ dq
    +:+ " 1 2 4 header cols=+scoresums no-mean-imputation".
Proof.
  apply (extension_stripped_when_par_occurs_once "/scores" (w_fs w_scores) "plink2" "a").
  - vm_compute. left. reflexivity.
  - vm_compute. reflexivity.
Defined.

Lemma synthesis_touches_only_the_script_witness :
  let w1 := snd (create_ett_score_script (env_with tool_ok) "/scores" "S1" w_scores) in
  (exists text, fs_lookup (script_path (env_with tool_ok)) (w_fs w1) = Some (File text true)) /\
  (forall p, p <> script_path (env_with tool_ok) ->
             fs_lookup p (w_fs w1) = fs_lookup p (w_fs w_scores)) /\
  w_calls w1 = w_calls w_scores /\
  w_out w1 = (w_out w_scores
              ++ ["Created ETT_score_2.sh at " +:+ script_path (env_with tool_ok)])%list.
Proof.
  apply (synthesis_touches_only_the_script (env_with tool_ok) "/scores" "S1" w_scores).
  vm_compute. reflexivity.
Defined.

Lemma script_ignores_sample_id_witness :
  script_path (env_with tool_ok) = script_path (env_with tool_ok) /\
  fs_read (script_path (env_with tool_ok))
    (w_fs (snd (create_ett_score_script (env_with tool_ok) "/scores" "S1" w_scores)))
  = fs_read (script_path (env_with tool_ok))
      (w_fs (snd (create_ett_score_script (env_with tool_ok) "/scores" "S2" w_scores))).
Proof.
  apply (script_ignores_sample_id (env_with tool_ok) "/scores" "S1" "S2" w_scores w_scores);
    vm_compute; reflexivity.
Defined.

Lemma unreadable_config_witness :
  load_cfg env_bad_config w_bad_config = (Ok ∅, w_bad_config) /\
  create_ett_score_script env_bad_config "/scores" "S1" w_bad_config
  = (Raise (ValueError "Expecting value: line 1 column 1 (char 0)"), w_bad_config).
Proof.
  apply (unreadable_config_fails_synthesis env_bad_config "/scores" "S1" w_bad_config
           "not json" false).
  - reflexivity.
  - reflexivity.
  - vm_compute. discriminate.
Defined.

End SynthesisEffects.

(** ** The orchestrator: command order, rejection and fatal stages *)
Module PipelineEffects.
Import Py PyFacts Orchestration PipelineSpec Scenarios RunScenarios PipelineFacts.
Import Effects MoreScenarios.

Lemma keeps_ret {A} (a : A) : keeps_calls (ret a).
Proof. intros w r w1 H. now inversion H. Qed.
Lemma keeps_raise {A} e : keeps_calls (@raise A e).
Proof. intros w r w1 H. now inversion H. Qed.
Lemma keeps_print s : keeps_calls (print s).
Proof. intros w r w1 H. now inversion H. Qed.
Lemma keeps_bind {A B} (m : M A) (k : A -> M B) :
  keeps_calls m -> (forall a, keeps_calls (k a)) -> keeps_calls (bind m k).
Proof.
  intros Hm Hk w r w1. unfold bind.
  destruct (m w) as [[a|e] w0] eqn:Hmw.
  - intros H. rewrite (Hk a _ _ _ H). eapply Hm; eauto.
  - intros H. inversion H; subst. eapply Hm; eauto.
Qed.
Lemma keeps_get_fs : keeps_calls get_fs.
Proof. intros w r w1 H. now inversion H. Qed.
Lemma keeps_put_fs fs : keeps_calls (put_fs fs).
Proof. intros w r w1 H. now inversion H. Qed.
Lemma keeps_lift_fs f : keeps_calls (lift_fs f).
Proof.
  unfold lift_fs. apply keeps_bind; [apply keeps_get_fs|].
  intros fs. destruct (f fs); [apply keeps_put_fs | apply keeps_raise].
Qed.
Lemma keeps_path_exists p : keeps_calls (path_exists p).
Proof.
  unfold path_exists. apply keeps_bind; [apply keeps_get_fs | intros; apply keeps_ret].
Qed.
Lemma keeps_read_file p : keeps_calls (read_file p).
Proof.
  unfold read_file. apply keeps_bind; [apply keeps_get_fs|].
  intros fs. destruct (fs_read p fs); [apply keeps_ret | apply keeps_raise].
Qed.
Lemma keeps_safe_copy src dst : keeps_calls (safe_copy src dst).
Proof.
  unfold safe_copy. apply keeps_bind; [apply keeps_lift_fs | intros; apply keeps_print].
Qed.
Lemma keeps_step0 vcf : keeps_calls (step0_validate vcf).
Proof.
  unfold step0_validate. apply keeps_bind; [apply keeps_path_exists|].
  intros ex. destruct (negb ex); [apply keeps_raise | apply keeps_ret].
Qed.

Lemma run_calls E cmd cwd w r w1 :
  run E cmd cwd w = (r, w1) -> w_calls w1 = (w_calls w ++ [Call cmd cwd])%list.
Proof. rewrite run_eq. intros H. inversion H. reflexivity. Qed.


Lemma keeps_patch_pipeline E sid : keeps_calls (PrsPipeline.patch_conversion_script E sid).
Proof.
  unfold PrsPipeline.patch_conversion_script.
  apply keeps_bind; [apply keeps_path_exists|]. intros ex.
  apply keeps_bind; [destruct (negb ex); [apply keeps_raise | apply keeps_ret]|].
  intros _. apply keeps_bind; [apply keeps_read_file|]. intros c.
  apply keeps_bind; [apply keeps_lift_fs | intros; apply keeps_print].
Qed.

Lemma keeps_check_local_geno E sid : keeps_calls (PrsPipeline.check_local_geno E sid).
Proof.
  unfold PrsPipeline.check_local_geno.
  apply keeps_bind; [apply keeps_path_exists|].
  intros ex. destruct (negb ex); [apply keeps_raise | apply keeps_ret].
Qed.

Lemma keeps_lift_res {A} (r : res A) : keeps_calls (lift_res r).
Proof. destruct r; [apply keeps_ret | apply keeps_raise]. Qed.

Lemma keeps_glob d ext : keeps_calls (glob d ext).
Proof. unfold glob. apply keeps_bind; [apply keeps_get_fs | intros; apply keeps_ret]. Qed.

Lemma keeps_for_each {A} (l : list A) (f : A -> M unit) :
  (forall a, keeps_calls (f a)) -> keeps_calls (for_each l f).
Proof.
  intros Hf. induction l as [|a l IH]; [apply keeps_ret|].
  cbn [for_each]. apply keeps_bind; [apply Hf | intros; apply IH].
Qed.

Lemma keeps_try {A} (m : M A) h :
  keeps_calls m -> (forall e, keeps_calls (h e)) -> keeps_calls (try_except m h).
Proof.
  intros Hm Hh w r w1. unfold try_except.
  destruct (m w) as [[a|e] w0] eqn:Hmw.
  - intros H. inversion H; subst. eapply Hm; eauto.
  - intros H. rewrite (Hh e _ _ _ H). eapply Hm; eauto.
Qed.

Lemma keeps_handlers e : keeps_calls (handlers e).
Proof.
  unfold handlers. apply keeps_bind; [|intros; apply keeps_ret].
  destruct e; apply keeps_print.
Qed.

Lemma keeps_load_cfg E : keeps_calls (load_cfg E).
Proof. intros w r w1. rewrite load_cfg_eq. intros H. now inversion H. Qed.

Lemma keeps_file_structure_pipeline E sid : keeps_calls (PrsPipeline.file_structure E sid).
Proof.
  unfold PrsPipeline.file_structure.
  repeat (apply keeps_bind; [apply keeps_lift_fs | intros _]). apply keeps_lift_fs.
Qed.

Lemma keeps_file_structure_gui E sid : keeps_calls (PrsGui.file_structure E sid).
Proof.
  unfold PrsGui.file_structure.
  repeat (apply keeps_bind; [apply keeps_lift_fs | intros _]). apply keeps_lift_fs.
Qed.

Lemma keeps_read_cfg E : keeps_calls (PrsGui.read_cfg E).
Proof.
  unfold PrsGui.read_cfg. apply keeps_bind; [apply keeps_path_exists|].
  intros [|]; [|apply keeps_ret].
  apply keeps_bind; [apply keeps_read_file | intros; apply keeps_lift_res].
Qed.

Lemma keeps_create E dir sid : keeps_calls (PrsGui.create_ett_score_script E dir sid).
Proof.
  unfold PrsGui.create_ett_score_script.
  apply keeps_bind; [apply keeps_glob|]. intros pf.
  apply keeps_bind; [destruct pf; [apply keeps_raise | apply keeps_ret]|]. intros _.
  apply keeps_bind; [apply keeps_read_cfg|]. intros cfg.
  apply keeps_bind; [apply keeps_lift_fs|]. intros _.
  apply keeps_bind; [apply keeps_lift_fs|]. intros _.
  apply keeps_bind; [apply keeps_print | intros; apply keeps_ret].
Qed.

Lemma keeps_patch_gui E sid : keeps_calls (PrsGui.patch_conversion_script E sid).
Proof.
  unfold PrsGui.patch_conversion_script.
  apply keeps_bind; [apply keeps_path_exists|]. intros ex.
  apply keeps_bind.
  { destruct (negb ex); [|apply keeps_ret].
    apply keeps_bind; [apply keeps_lift_fs | intros; apply keeps_lift_fs]. }
  intros _. apply keeps_bind; [apply keeps_read_file|]. intros c.
  apply keeps_bind; [apply keeps_lift_fs | intros; apply keeps_print].
Qed.

Lemma keeps_ensure_local_geno E sid : keeps_calls (PrsGui.ensure_local_geno E sid).
Proof.
  unfold PrsGui.ensure_local_geno.
  apply keeps_bind; [apply keeps_path_exists|].
  intros ex. destruct (negb ex); [|apply keeps_ret].
  apply keeps_bind; [apply keeps_print | intros; apply keeps_lift_fs].
Qed.

Lemma keeps_list_scores E sid : keeps_calls (PrsGui.list_scores E sid).
Proof.
  unfold PrsGui.list_scores. apply keeps_bind; [apply keeps_glob|].
  intros [|sf l]; [apply keeps_ret|].
  apply keeps_bind; [apply keeps_print|]. intros _.
  apply keeps_bind; [apply keeps_for_each; intros; apply keeps_print|]. intros _.
  destruct (_ <? _)%nat; [apply keeps_print | apply keeps_ret].
Qed.

Lemma traces_weaken {A} (m : M A) (P Q : list call -> Prop) :
  traces m P -> (forall L, P L -> Q L) -> traces m Q.
Proof.
  intros Hm HPQ w r w1 H. destruct (Hm _ _ _ H) as (L & l & HP & Hpre & Hc & Hok).
  exists L, l. auto.
Qed.

Lemma traces_keeps {A} (m : M A) : keeps_calls m -> traces m (eq []).
Proof.
  intros Hm w r w1 H. exists [], []. rewrite app_nil_r.
  repeat split; [reflexivity | eapply Hm; eauto].
Qed.

Lemma traces_run E cmd cwd : traces (run E cmd cwd) (eq [Call cmd cwd]).
Proof.
  intros w r w1 H. exists [Call cmd cwd], [Call cmd cwd].
  repeat split; [reflexivity | eapply run_calls; eauto].
Qed.

Lemma traces_bind {A B} (m : M A) (k : A -> M B) L1 P :
  traces m (eq L1) -> (forall a, traces (k a) P) -> (exists t, P t) ->
  traces (bind m k) (fun L => exists t, P t /\ L = (L1 ++ t)%list).
Proof.
  intros Hm Hk [t0 Ht0] w r w1. unfold bind.
  destruct (m w) as [[a|e] w0] eqn:Hmw; intros H.
  - destruct (Hm _ _ _ Hmw) as (L & l & <- & _ & Hc & Hok).
    rewrite (Hok a eq_refl) in Hc.
    destruct (Hk a _ _ _ H) as (t & l2 & HP & Hpre & Hc2 & Hok2).
    exists (L1 ++ t)%list, (L1 ++ l2)%list. split; [eauto|].
    split; [now apply prefix_app|].
    split; [now rewrite Hc2, Hc, app_assoc|].
    intros b Hb. now rewrite (Hok2 b Hb).
  - inversion H; subst.
    destruct (Hm _ _ _ Hmw) as (L & l & <- & Hpre & Hc & _).
    exists (L1 ++ t0)%list, l. split; [eauto|].
    split; [now apply prefix_app_r|].
    split; [exact Hc | discriminate].
Qed.

Lemma traces_closing E (k : M unit) :
  keeps_calls k ->
  traces (bind (step8_parse E) (fun _ => bind (step9_report E) (fun _ => k)))
         (fun t => In t (optional_calls E)).
Proof.
  intros Hk w r w1. unfold bind.
  destruct (step8_parse E w) as [[[]|e8] w8] eqn:H8.
  - destruct (step9_report E w8) as [[[]|e9] w9] eqn:H9.
    + intros H. apply Hk in H.
      unfold step8_parse in H8. erewrite bind_ok in H8 by reflexivity.
      unfold step9_report in H9. erewrite bind_ok in H9 by reflexivity.
      destruct (fs_exists (ancestry_parse_script E) (w_fs w));
        destruct (fs_exists (report_script E) (w_fs w8)).
      * apply run_calls in H8.
        apply bind_inv_ok in H9 as ([] & w0 & Hc & H9).
        apply keeps_lift_fs in Hc. apply run_calls in H9.
        eexists _, _. split; [right; right; right; left; reflexivity|].
        split; [reflexivity|]. split; [|reflexivity].
        now rewrite H, H9, Hc, H8, <- app_assoc.
      * apply run_calls in H8. apply keeps_print in H9.
        eexists _, _. split; [right; left; reflexivity|].
        split; [reflexivity|]. split; [|reflexivity].
        now rewrite H, H9, H8.
      * apply keeps_print in H8.
        apply bind_inv_ok in H9 as ([] & w0 & Hc & H9).
        apply keeps_lift_fs in Hc. apply run_calls in H9.
        eexists _, _. split; [right; right; left; reflexivity|].
        split; [reflexivity|]. split; [|reflexivity].
        now rewrite H, H9, Hc, H8.
      * apply keeps_print in H8. apply keeps_print in H9.
        exists [], []. split; [left; reflexivity|].
        split; [reflexivity|]. split; [|reflexivity].
        now rewrite H, H9, H8, app_nil_r.
    + intros H. inversion H; subst.
      unfold step8_parse in H8. erewrite bind_ok in H8 by reflexivity.
      unfold step9_report in H9. erewrite bind_ok in H9 by reflexivity.
      destruct (fs_exists (ancestry_parse_script E) (w_fs w));
        destruct (fs_exists (report_script E) (w_fs w8)).
      * apply run_calls in H8. unfold bind in H9.
        destruct (chmod_exec (report_script E) w8) as [[[]|ec] w0] eqn:Hc;
          pose proof (keeps_lift_fs _ _ _ _ Hc) as Hk0.
        -- apply run_calls in H9.
           eexists _, _. split; [right; right; right; left; reflexivity|].
           split; [reflexivity|]. split; [|discriminate].
           now rewrite H9, Hk0, H8, <- app_assoc.
        -- inversion H9; subst.
           eexists _, _. split; [right; left; reflexivity|].
           split; [reflexivity|]. split; [|discriminate].
           now rewrite Hk0, H8.
      * discriminate.
      * apply keeps_print in H8. unfold bind in H9.
        destruct (chmod_exec (report_script E) w8) as [[[]|ec] w0] eqn:Hc;
          pose proof (keeps_lift_fs _ _ _ _ Hc) as Hk0.
        -- apply run_calls in H9.
           eexists _, _. split; [right; right; left; reflexivity|].
           split; [reflexivity|]. split; [|discriminate].
           now rewrite H9, Hk0, H8.
        -- inversion H9; subst.
           exists [], []. split; [left; reflexivity|].
           split; [reflexivity|]. split; [|discriminate].
           now rewrite Hk0, H8, app_nil_r.
      * discriminate.
  - intros H. inversion H; subst.
    unfold step8_parse in H8. erewrite bind_ok in H8 by reflexivity.
    destruct (fs_exists (ancestry_parse_script E) (w_fs w)); [|discriminate].
    apply run_calls in H8.
    eexists _, _. split; [right; left; reflexivity|].
    split; [reflexivity|]. split; [exact H8 | discriminate].
Qed.

Lemma traces_after_keeps {A B} (m : M A) (k : A -> M B) L :
  keeps_calls m -> (forall a, traces (k a) (eq L)) -> traces (bind m k) (eq L).
Proof.
  intros Hm Hk. eapply traces_weaken.
  - eapply traces_bind; [apply traces_keeps, Hm | apply Hk | eauto].
  - intros L' (t & <- & ->). reflexivity.
Qed.

Lemma traces_before_keeps {A B} (m : M A) (k : A -> M B) L :
  traces m (eq L) -> (forall a, keeps_calls (k a)) -> traces (bind m k) (eq L).
Proof.
  intros Hm Hk. eapply traces_weaken.
  - eapply traces_bind; [apply Hm | intros a; apply traces_keeps, Hk | eauto].
  - intros L' (t & <- & ->). now rewrite app_nil_r.
Qed.

Lemma traces_step3_pipeline E sid :
  traces (PrsPipeline.step3_score E sid)
    (eq [Call (score_cmd (PrsPipeline.ett_score_script E) (out_prefix_id_of E sid)
                 (prs_dir_of E sid)) None]).
Proof.
  unfold PrsPipeline.step3_score.
  apply traces_after_keeps; [apply keeps_path_exists | intros ex].
  apply traces_after_keeps;
    [destruct (negb ex); [apply keeps_raise | apply keeps_ret] | intros _].
  apply traces_after_keeps; [apply keeps_lift_fs | intros _].
  apply traces_run.
Qed.

Lemma traces_step5_pipeline E sid :
  traces (PrsPipeline.step5_convert E sid) (eq [Call convert_cmd (Some (vcf_dir_of E sid))]).
Proof.
  unfold PrsPipeline.step5_convert.
  apply traces_after_keeps; [apply keeps_patch_pipeline | intros _].
  apply traces_before_keeps; [apply traces_run | intros _].
  apply keeps_check_local_geno.
Qed.

Ltac inhabited_trace :=
  repeat match goal with
         | |- exists _, _ => eexists
         | |- _ /\ _ => split
         | |- In _ (optional_calls _) => left; reflexivity
         | |- _ = _ => reflexivity
         end.

Lemma traces_pipeline_body E vcf sid pl pl2 dk :
  traces (PrsPipeline.pipeline_body E vcf sid pl pl2 dk)
    (fun L => exists tail, In tail (optional_calls E) /\
       L = ([Call (import_cmd pl vcf (out_prefix_of E sid)) None;
             Call (normalize_cmd pl2 (out_prefix_of E sid) (out_prefix_id_of E sid)) None;
             Call (score_cmd (PrsPipeline.ett_score_script E) (out_prefix_id_of E sid)
                     (prs_dir_of E sid)) None;
             Call (recode_cmd pl (out_prefix_id_of E sid) (vcf_dir_of E sid)) None;
             Call convert_cmd (Some (vcf_dir_of E sid));
             Call (ancestry_cmd E dk (ancestry_dir E) "ancestry-py27") None] ++ tail)%list).
Proof.
  unfold PrsPipeline.pipeline_body. eapply traces_weaken.
  - eapply traces_bind; [apply traces_keeps, keeps_step0 | intros _ |].
    eapply traces_bind; [apply traces_keeps, keeps_print | intros _ |].
    eapply traces_bind; [apply traces_run | intros _ |].
    eapply traces_bind; [apply traces_run | intros _ |].
    eapply traces_bind; [apply traces_step3_pipeline | intros _ |].
    eapply traces_bind; [apply traces_run | intros _ |].
    eapply traces_bind; [apply traces_step5_pipeline | intros _ |].
    eapply traces_bind; [apply traces_keeps, keeps_safe_copy | intros _ |].
    eapply traces_bind; [apply traces_run | intros _ |].
    apply traces_closing, keeps_print.
    all: inhabited_trace.
  - cbv beta. intros L H.
    repeat match goal with
           | H : exists _, _ |- _ => destruct H as (? & H)
           | H : _ /\ _ |- _ => destruct H as [H ?]
           end.
    subst. eexists. split; [eassumption|]. reflexivity.
Qed.

Lemma bind_inv_raise {A B} (m : M A) (k : A -> M B) w e w' :
  bind m k w = (Raise e, w') ->
  m w = (Raise e, w') \/ exists a w1, m w = (Ok a, w1) /\ k a w1 = (Raise e, w').
Proof.
  unfold bind. destruct (m w) as [[a|e0] w1]; [eauto|].
  intros H. inversion H; subst. now left.
Qed.

Lemma guarded_trace (body : M unit) P w r w' :
  traces body P ->
  try_except (bind body (fun _ => ret Completed)) handlers w = (r, w') ->
  exists L l, P L /\ l `prefix_of` L /\ w_calls w' = (w_calls w ++ l)%list /\
              (r = Ok Completed -> l = L) /\ r <> Ok Rejected /\
              exists o, r = Ok o.
Proof.
  intros Hb. unfold try_except.
  destruct (bind body (fun _ => ret Completed) w) as [[o|e] w2] eqn:H.
  - intros H'. inversion H'; subst.
    apply bind_inv_ok in H as ([] & w1 & H & Hr). inversion Hr; subst.
    destruct (Hb _ _ _ H) as (L & l & HP & Hpre & Hc & Hok).
    exists L, l. repeat split; eauto; discriminate.
  - intros H'.
    assert (Hbody : body w = (Raise e, w2)).
    { apply bind_inv_raise in H as [H | (a & w1 & _ & H)]; [exact H | discriminate]. }
    destruct (Hb _ _ _ Hbody) as (L & l & HP & Hpre & Hc & Hok).
    destruct (handlers_eq e w2) as [msg Hh]. rewrite Hh in H'. inversion H'; subst.
    exists L, l. repeat split; eauto; discriminate.
Qed.

(** X13: whatever way a run of [prs_pipeline.py] ends, the commands it has
    started are the first ones of the fixed sequence import, normalize,
    score, recode, convert, ancestry, followed by the parser and the report
    script where installed; a completed run has started all of them, a
    rejected run none. *)
Theorem pipeline_tools_in_order E vcf sid ph sx ag w r w' :
  let required :=
    required_calls E "ancestry-py27" (PrsPipeline.ett_score_script E)
      (default EmptyString vcf) (default EmptyString sid) (w_fs w) in
  PrsPipeline.run_pipeline_cli E vcf sid ph sx ag w = (r, w') ->
  exists tail l,
    In tail (optional_calls E) /\
    l `prefix_of` (required ++ tail)%list /\
    w_calls w' = (w_calls w ++ l)%list /\
    (r = Ok Completed -> l = (required ++ tail)%list) /\
    (r = Ok Rejected -> l = []).
Proof.
  intros required. unfold PrsPipeline.run_pipeline_cli.
  erewrite bind_ok by apply load_cfg_eq.
  destruct (falsy vcf || falsy sid).
  - intros H. inversion H; subst. exists [], [].
    split; [now left|]. split; [apply prefix_nil|].
    split; [cbn; now rewrite app_nil_r|]. split; [discriminate | reflexivity].
  - erewrite bind_ok by reflexivity. unfold bind at 1.
    match goal with |- context [PrsPipeline.file_structure E ?s ?w0] =>
      destruct (PrsPipeline.file_structure E s w0) as [[[]|e] w1] eqn:Hfs end;
      apply keeps_file_structure_pipeline in Hfs; cbn [w_calls] in Hfs.
    + intros H.
      destruct (guarded_trace _ _ _ _ _
                  (traces_pipeline_body E _ _ _ _ _) H)
        as (L & l & (tail & Hin & ->) & Hpre & Hc & Hok & Hrej & _).
      exists tail, l. rewrite Hfs in Hc. repeat split; auto.
      intros Hr. now destruct Hrej.
    + intros H. inversion H; subst. exists [], [].
      split; [now left|]. split; [apply prefix_nil|].
      split; [now rewrite app_nil_r|]. split; discriminate.
Qed.

Lemma traces_seq {A B} (m : M A) (k : A -> M B) L1 L2 :
  traces m (eq L1) -> (forall a, traces (k a) (eq L2)) ->
  traces (bind m k) (eq (L1 ++ L2)%list).
Proof.
  intros Hm Hk. eapply traces_weaken.
  - eapply traces_bind; [apply Hm | apply Hk | eauto].
  - intros L' (t & <- & ->). reflexivity.
Qed.

Lemma create_returns_script_path E dir sid w p w1 :
  PrsGui.create_ett_score_script E dir sid w = (Ok p, w1) -> p = PrsGui.script_path E.
Proof.
  unfold PrsGui.create_ett_score_script. intros H.
  apply bind_inv_ok in H as (pf & wa & _ & H).
  apply bind_inv_ok in H as ([] & wb & _ & H).
  apply bind_inv_ok in H as (cfg & wc & _ & H).
  apply bind_inv_ok in H as ([] & wd & _ & H).
  apply bind_inv_ok in H as ([] & we & _ & H).
  apply bind_inv_ok in H as ([] & wf & _ & H).
  now inversion H.
Qed.

Lemma traces_step3_gui E dir sid :
  traces (PrsGui.step3_score E dir sid)
    (eq [Call (score_cmd (PrsGui.script_path E) (out_prefix_id_of E sid)
                 (prs_dir_of E sid)) None]).
Proof.
  intros w r w1. unfold PrsGui.step3_score, bind.
  destruct (PrsGui.create_ett_score_script E dir sid w) as [[p|e] w0] eqn:Hc;
    pose proof (keeps_create _ _ _ _ _ _ Hc) as Hk.
  - apply create_returns_script_path in Hc. subst p. intros H.
    apply run_calls in H. eexists _, _. split; [reflexivity|].
    split; [reflexivity|]. split; [now rewrite H, Hk | reflexivity].
  - intros H. inversion H; subst. eexists _, []. split; [reflexivity|].
    split; [apply prefix_nil|]. split; [now rewrite app_nil_r | discriminate].
Qed.

Lemma traces_step5_gui E sid :
  traces (PrsGui.step5_convert E sid) (eq [Call convert_cmd (Some (vcf_dir_of E sid))]).
Proof.
  unfold PrsGui.step5_convert.
  apply traces_after_keeps; [apply keeps_patch_gui | intros _].
  apply traces_before_keeps; [apply traces_run | intros _].
  apply keeps_ensure_local_geno.
Qed.

Lemma traces_step7_gui E dk :
  traces (PrsGui.step7_ancestry E dk)
    (eq [Call (ancestry_cmd E dk (ancestry_dir E) "python") None]).
Proof.
  intros w r w1 H. destruct (step7_gui_returns E dk w) as (w2 & H2 & Hc).
  rewrite H2 in H. inversion H; subst.
  eexists _, _. split; [reflexivity|]. split; [reflexivity|]. split; [exact Hc | reflexivity].
Qed.

Lemma traces_required_stages E vcf sid dir pl pl2 dk :
  traces (PrsGui.required_stages E vcf sid dir pl pl2 dk)
    (eq [Call (import_cmd pl vcf (out_prefix_of E sid)) None;
         Call (normalize_cmd pl2 (out_prefix_of E sid) (out_prefix_id_of E sid)) None;
         Call (score_cmd (PrsGui.script_path E) (out_prefix_id_of E sid)
                 (prs_dir_of E sid)) None;
         Call (recode_cmd pl (out_prefix_id_of E sid) (vcf_dir_of E sid)) None;
         Call convert_cmd (Some (vcf_dir_of E sid))]).
Proof.
  unfold PrsGui.required_stages.
  apply traces_after_keeps; [apply keeps_step0 | intros _].
  apply traces_after_keeps; [apply keeps_print | intros _].
  apply (traces_seq _ _ [_] [_; _; _; _]); [apply traces_run | intros _].
  apply (traces_seq _ _ [_] [_; _; _]); [apply traces_run | intros _].
  apply (traces_seq _ _ [_] [_; _]); [apply traces_step3_gui | intros _].
  apply (traces_seq _ _ [_] [_]); [apply traces_run | intros _].
  apply traces_before_keeps; [apply traces_step5_gui | intros _].
  apply keeps_safe_copy.
Qed.

Lemma traces_gui_body E vcf sid dir pl pl2 dk :
  traces (PrsGui.pipeline_body E vcf sid dir pl pl2 dk)
    (fun L => exists tail, In tail (optional_calls E) /\
       L = ([Call (import_cmd pl vcf (out_prefix_of E sid)) None;
             Call (normalize_cmd pl2 (out_prefix_of E sid) (out_prefix_id_of E sid)) None;
             Call (score_cmd (PrsGui.script_path E) (out_prefix_id_of E sid)
                     (prs_dir_of E sid)) None;
             Call (recode_cmd pl (out_prefix_id_of E sid) (vcf_dir_of E sid)) None;
             Call convert_cmd (Some (vcf_dir_of E sid));
             Call (ancestry_cmd E dk (ancestry_dir E) "python") None] ++ tail)%list).
Proof.
  unfold PrsGui.pipeline_body. eapply traces_weaken.
  - eapply traces_bind; [apply traces_required_stages | intros _ |].
    eapply traces_bind; [apply traces_step7_gui | intros _ |].
    unfold PrsGui.closing_stages. apply traces_closing.
    apply keeps_bind; [apply keeps_print | intros _; apply keeps_list_scores].
    all: inhabited_trace.
  - cbv beta. intros L (t & (tail & Hin & ->) & ->).
    exists tail. split; [exact Hin | reflexivity].
Qed.

(** X14: whatever way a run of [prs_gui.py] ends, the commands it has
    started are the first ones of the fixed sequence import, normalize,
    score (with the synthesized script), recode, convert, ancestry, followed
    by the parser and the report script where installed; a completed run has
    started all of them, a rejected run none. *)
Theorem gui_tools_in_order E vcf sid ph sx ag dir w r w' :
  let required :=
    required_calls E "python" (PrsGui.script_path E)
      (default EmptyString vcf) (default EmptyString sid) (w_fs w) in
  PrsGui.run_pipeline_cli E vcf sid ph sx ag dir w = (r, w') ->
  exists tail l,
    In tail (optional_calls E) /\
    l `prefix_of` (required ++ tail)%list /\
    w_calls w' = (w_calls w ++ l)%list /\
    (r = Ok Completed -> l = (required ++ tail)%list) /\
    (r = Ok Rejected -> l = []).
Proof.
  intros required. unfold PrsGui.run_pipeline_cli.
  erewrite bind_ok by apply load_cfg_eq.
  assert (Hnone : forall (o : res outcome) w1,
             w_calls w1 = w_calls w -> o <> Ok Completed ->
             exists tail l, In tail (optional_calls E) /\
               l `prefix_of` (required ++ tail)%list /\
               w_calls w1 = (w_calls w ++ l)%list /\
               (o = Ok Completed -> l = (required ++ tail)%list) /\
               (o = Ok Rejected -> l = [])).
  { intros o w1 Hc Ho. exists [], []. split; [now left|]. split; [apply prefix_nil|].
    split; [now rewrite app_nil_r|]. split; [intros; contradiction | reflexivity]. }
  destruct (falsy vcf || falsy sid).
  - intros H. inversion H; subst. apply Hnone; [reflexivity | discriminate].
  - erewrite bind_ok by reflexivity.
    match goal with |- context [if ?c then _ else _] => destruct c end.
    + intros H. inversion H; subst. apply Hnone; [reflexivity | discriminate].
    + do 2 erewrite bind_ok by reflexivity. unfold bind at 1.
      match goal with |- context [PrsGui.file_structure E ?s ?w0] =>
        destruct (PrsGui.file_structure E s w0) as [[[]|e] w1] eqn:Hfs end;
        apply keeps_file_structure_gui in Hfs; cbn [w_calls] in Hfs.
      * intros H.
        destruct (guarded_trace _ _ _ _ _
                    (traces_gui_body E _ _ _ _ _ _) H)
          as (L & l & (tail & Hin & ->) & Hpre & Hc & Hok & Hrej & _).
        exists tail, l. rewrite Hfs in Hc. repeat split; auto.
        intros Hr. now destruct Hrej.
      * intros H. inversion H; subst. apply Hnone; [exact Hfs | discriminate].
Qed.


(** X16: in [prs_pipeline.py] a missing input file ends the run as
    [Failed] with [FileNotFoundError] before any command is started, but
    after the directories of the sample have been created. *)
Theorem missing_input_fails_before_any_tool E vcf sid ph sx ag w fs1 :
  falsy (Some vcf) = false ->
  falsy (Some sid) = false ->
  setup_fs_pipeline E sid (w_fs w) = Ok fs1 ->
  fs_exists vcf fs1 = false ->
  exists msg,
    PrsPipeline.run_pipeline_cli E (Some vcf) (Some sid) ph sx ag w
    = (Ok (Failed (FileNotFoundError ("VCF file not found: " +:+ vcf))),
       with_out (start_world_pipeline sid w fs1) [msg]).
Proof.
  intros Hv Hs Hsetup Hvcf.
  unfold PrsPipeline.run_pipeline_cli.
  erewrite bind_ok by apply load_cfg_eq.
  rewrite Hv, Hs. cbn [orb default from_option id].
  step.
  pose proof (file_structure_pipeline E sid
                (World (w_fs w) (w_out w ++ ["Pipeline başlıyor... " +:+ sid])
                       (w_err w) (w_calls w))) as Hfs.
  cbn [w_fs w_out w_err w_calls] in Hfs. rewrite Hsetup in Hfs.
  erewrite bind_ok by exact Hfs.
  unfold try_except.
  erewrite bind_raise.
  2:{ unfold PrsPipeline.pipeline_body.
      erewrite bind_raise; [reflexivity|].
      unfold step0_validate. step. cbn [w_fs]. rewrite Hvcf. reflexivity. }
  match goal with |- context [handlers ?e ?w0] =>
    destruct (handlers_eq e w0) as [l ->] end.
  exists l. reflexivity.
Qed.

Lemma missing_input_fails_witness :
  exists msg,
    PrsPipeline.run_pipeline_cli env_idle (Some "/data/none.vcf") (Some "S1")
      None None None w_vcf
    = (Ok (Failed (FileNotFoundError ("VCF file not found: " +:+ "/data/none.vcf"))),
       with_out (start_world_pipeline "S1" w_vcf
                   (res_default [] (setup_fs_pipeline env_idle "S1" (w_fs w_vcf)))) [msg]).
Proof.
  apply (missing_input_fails_before_any_tool env_idle "/data/none.vcf" "S1"
           None None None w_vcf);
    vm_compute; reflexivity.
Defined.

(** X17: in [prs_pipeline.py], when the conversion command has run and
    left no output file, the guarded block ends there as [Failed] with
    [FileNotFoundError]: no placeholder is written and nothing is handed to
    the ancestry estimator. *)
Theorem pipeline_missing_conversion_output_is_fatal
    E vcf sid plink_bin plink2_bin docker_bin w1 w5 :
  pipeline_stages_to_conversion E vcf sid plink_bin plink2_bin docker_bin w1 = (Ok tt, w5) ->
  fs_exists (local_geno_of E sid) (w_fs w5) = false ->
  exists msg,
    try_except
      (bind (PrsPipeline.pipeline_body E vcf sid plink_bin plink2_bin docker_bin)
            (fun _ => ret Completed))
      handlers w1
    = (Ok (Failed (FileNotFoundError
                     ("Conversion did not produce " +:+ local_geno_of E sid))),
       with_out w5 [msg]).
Proof.
  intros Hpre Hgeno. unfold pipeline_stages_to_conversion in Hpre.
  apply bind_inv_ok in Hpre as ([] & wa & H0 & Hpre).
  apply bind_inv_ok in Hpre as ([] & wb & Hp & Hpre).
  apply bind_inv_ok in Hpre as ([] & wc & Hs1 & Hpre).
  apply bind_inv_ok in Hpre as ([] & wd & Hs2 & Hpre).
  apply bind_inv_ok in Hpre as ([] & we & Hs3 & Hpre).
  apply bind_inv_ok in Hpre as ([] & wf & Hs4 & Hpre).
  apply bind_inv_ok in Hpre as ([] & wg & Hpatch & Hconv).
  match goal with |- context [Failed ?e] =>
    destruct (handlers_eq e w5) as [l Hl] end.
  exists l. unfold try_except.
  erewrite bind_raise; [exact Hl|].
  unfold PrsPipeline.pipeline_body.
  erewrite bind_ok by exact H0. erewrite bind_ok by exact Hp.
  erewrite bind_ok by exact Hs1. erewrite bind_ok by exact Hs2.
  erewrite bind_ok by exact Hs3. erewrite bind_ok by exact Hs4.
  erewrite bind_raise; [reflexivity|].
  unfold PrsPipeline.step5_convert.
  erewrite bind_ok by exact Hpatch. erewrite bind_ok by exact Hconv.
  unfold PrsPipeline.check_local_geno. step. rewrite Hgeno. reflexivity.
Qed.

Lemma str_replace_absent old new s :
  str_contains old s = false -> str_replace old new s = s.
Proof.
  unfold str_replace. induction s as [|a s IH]; [reflexivity|].
  cbn [str_contains replace_go]. intros H.
  apply orb_false_iff in H as [Hp Hc]. rewrite Hp. now rewrite IH.
Qed.

Lemma patch_pipeline_eq E sid w c x :
  fs_lookup (conversion_template E) (w_fs w) = Some (File c x) ->
  PrsPipeline.patch_conversion_script E sid w
  = bind (write_file (path_join (vcf_dir_of E sid) "individual_conversion.py")
            (str_replace (dq +:+ "HT.bim" +:+ dq) (dq +:+ bim_file_of E sid +:+ dq) c))
         (fun _ => print ("Patched individual_conversion.py to use BIM: "
                          +:+ bim_file_of E sid)) w.
Proof.
  intros Ht. unfold PrsPipeline.patch_conversion_script.
  erewrite bind_ok by reflexivity. unfold fs_exists. rewrite Ht. cbn [negb].
  erewrite bind_ok by reflexivity.
  erewrite bind_ok; [reflexivity|].
  unfold read_file. erewrite bind_ok by reflexivity. unfold fs_read. now rewrite Ht.
Qed.

Lemma patch_gui_eq E sid w c x :
  fs_lookup (conversion_template E) (w_fs w) = Some (File c x) ->
  PrsGui.patch_conversion_script E sid w
  = bind (write_file (path_join (vcf_dir_of E sid) "individual_conversion.py")
            (str_replace (dq +:+ "HT.bim" +:+ dq) (dq +:+ bim_file_of E sid +:+ dq) c))
         (fun _ => print ("Patched individual_conversion.py to use BIM: "
                          +:+ bim_file_of E sid)) w.
Proof.
  intros Ht. unfold PrsGui.patch_conversion_script.
  erewrite bind_ok by reflexivity. unfold fs_exists. rewrite Ht. cbn [negb].
  erewrite bind_ok by reflexivity.
  erewrite bind_ok.
  2:{ unfold read_file. erewrite bind_ok by reflexivity. unfold fs_read. now rewrite Ht. }
  destruct (str_contains (dq +:+ "HT.bim" +:+ dq) c) eqn:Hc; [reflexivity|].
  now rewrite (str_replace_absent _ _ _ Hc).
Qed.

(** X19: with the conversion script installed, the patch steps of the two
    files are the same function of the world (the guard of [prs_gui.py]
    changes nothing), and the copy written for the sample is the installed
    text with every quoted [HT.bim] replaced by the quoted path of the
    sample's metadata file. *)
Theorem patch_step_agrees E sid w c x :
  let dest := path_join (vcf_dir_of E sid) "individual_conversion.py" in
  let patched :=
    str_replace (dq +:+ "HT.bim" +:+ dq) (dq +:+ bim_file_of E sid +:+ dq) c in
  fs_lookup (conversion_template E) (w_fs w) = Some (File c x) ->
  PrsGui.patch_conversion_script E sid w = PrsPipeline.patch_conversion_script E sid w /\
  (fs_lookup dest (w_fs w) <> Some Dir ->
   exists w',
     PrsPipeline.patch_conversion_script E sid w = (Ok tt, w') /\
     fs_read dest (w_fs w') = Ok patched /\
     w_calls w' = w_calls w).
Proof.
  intros dest patched Ht. split.
  - now rewrite (patch_gui_eq _ _ _ _ _ Ht), (patch_pipeline_eq _ _ _ _ _ Ht).
  - intros Hd. rewrite (patch_pipeline_eq _ _ _ _ _ Ht).
    fold dest. fold patched.
    destruct (ConversionFacts.write_file_ok dest patched w Hd) as [x0 Hw].
    erewrite bind_ok by exact Hw. eexists. split; [reflexivity|].
    cbn [w_fs w_calls]. unfold fs_read. rewrite fs_lookup_set_eq. split; reflexivity.
Qed.

Lemma lift_fs_eq f w :
  lift_fs f w
  = match f (w_fs w) with
    | Ok fs' => (Ok tt, World fs' (w_out w) (w_err w) (w_calls w))
    | Raise e => (Raise e, w)
    end.
Proof. unfold lift_fs. step. destruct (f (w_fs w)); reflexivity. Qed.

(** X20: [safe_copy] onto a path that is not a directory either succeeds,
    after which the target reads as the source, every other path is as
    before and one line is printed, or raises and leaves the world as it
    was. *)
Theorem safe_copy_all_or_nothing src dst w r w' :
  safe_copy src dst w = (r, w') ->
  fs_lookup dst (w_fs w) <> Some Dir ->
  (r = Ok tt /\
   (exists c, fs_read src (w_fs w) = Ok c /\ fs_read dst (w_fs w') = Ok c) /\
   (forall p, p <> dst -> fs_lookup p (w_fs w') = fs_lookup p (w_fs w)) /\
   w_out w' = (w_out w ++ ["Copied: " +:+ src +:+ " -> " +:+ dst])%list /\
   w_calls w' = w_calls w)
  \/ (exists e, r = Raise e /\ w' = w).
Proof.
  unfold safe_copy, bind. rewrite lift_fs_eq.
  unfold fs_copy, fs_read.
  destruct (fs_lookup src (w_fs w)) as [[|c x]|] eqn:Hs.
  - intros H _. inversion H; subst. right. eauto.
  - intros H Hd.
    destruct (fs_lookup dst (w_fs w)) as [[|c0 x0]|] eqn:Hl; [contradiction| |];
      (destruct (String.eqb src dst);
       [inversion H; subst; right; eauto|];
       rewrite Hl in H; inversion H; subst; left; cbn [w_fs w_out w_calls];
       split; [reflexivity|]; split;
       [exists c; split; [reflexivity | now rewrite fs_lookup_set_eq]|];
       split; [intros p Hp; now apply fs_lookup_set_ne|]; split; reflexivity).
  - intros H _. inversion H; subst. right. eauto.
Qed.

Lemma pipeline_tools_in_order_witness :
  let E := env_idle in
  let required :=
    required_calls E "ancestry-py27" (PrsPipeline.ett_score_script E)
      (default EmptyString (Some vcf0)) (default EmptyString (Some "S1")) (w_fs w_installed) in
  exists tail l,
    In tail (optional_calls E) /\
    l `prefix_of` (required ++ tail)%list /\
    w_calls (snd (PrsPipeline.run_pipeline_cli E (Some vcf0) (Some "S1") None None None
                    w_installed))
    = (w_calls w_installed ++ l)%list /\
    (Ok Completed = Ok Completed -> l = (required ++ tail)%list) /\
    (Ok Completed = Ok Rejected -> l = []).
Proof.
  apply (pipeline_tools_in_order env_idle (Some vcf0) (Some "S1") None None None
           w_installed (Ok Completed)).
  vm_compute. reflexivity.
Defined.

Lemma gui_tools_in_order_witness :
  let E := env_idle in
  let required :=
    required_calls E "python" (PrsGui.script_path E)
      (default EmptyString (Some vcf0)) (default EmptyString (Some "S1"))
      (w_fs w_scores_bare) in
  exists tail l,
    In tail (optional_calls E) /\
    l `prefix_of` (required ++ tail)%list /\
    w_calls (snd (PrsGui.run_pipeline_cli E (Some vcf0) (Some "S1") None None None
                    (Some "/scores") w_scores_bare))
    = (w_calls w_scores_bare ++ l)%list /\
    (Ok Completed = Ok Completed -> l = (required ++ tail)%list) /\
    (Ok Completed = Ok Rejected -> l = []).
Proof.
  apply (gui_tools_in_order env_idle (Some vcf0) (Some "S1") None None None
           (Some "/scores") w_scores_bare (Ok Completed)).
  vm_compute. reflexivity.
Defined.


Lemma pipeline_missing_conversion_output_witness :
  exists msg,
    try_except
      (bind (PrsPipeline.pipeline_body env_idle vcf0 "S1" "plink" "plink2" "docker")
            (fun _ => ret Completed))
      handlers
      (start_world_pipeline "S1" w_installed_no_output
         (pipeline_fs1 env_idle w_installed_no_output))
    = (Ok (Failed (FileNotFoundError
                     ("Conversion did not produce " +:+ local_geno_of env_idle "S1"))),
       with_out
         (snd (pipeline_stages_to_conversion env_idle vcf0 "S1" "plink" "plink2" "docker"
                 (start_world_pipeline "S1" w_installed_no_output
                    (pipeline_fs1 env_idle w_installed_no_output))))
         [msg]).
Proof.
  apply (pipeline_missing_conversion_output_is_fatal env_idle vcf0 "S1"
           "plink" "plink2" "docker").
  - vm_compute. reflexivity.
  - vm_compute. reflexivity.
Defined.

Lemma pipeline_ancestry_failure_is_fatal_witness :
  exists l,
    try_except
      (bind (PrsPipeline.pipeline_body env_docker_fails vcf0 "S1" "plink" "plink2" "docker")
            (fun _ => ret Completed))
      handlers
      (start_world_pipeline "S1" w_installed (pipeline_fs1 env_docker_fails w_installed))
    = (Ok (Failed (CalledProcessError 125
                     (ancestry_cmd env_docker_fails "docker"
                        (ancestry_dir env_docker_fails) "ancestry-py27"))),
       with_out
         (snd (PrsPipeline.step7_ancestry env_docker_fails "docker"
                 (snd (pipeline_stages_to_handoff env_docker_fails vcf0 "S1"
                         "plink" "plink2" "docker"
                         (start_world_pipeline "S1" w_installed
                            (pipeline_fs1 env_docker_fails w_installed))))))
         [l]).
Proof.
  apply (pipeline_ancestry_failure_is_fatal env_docker_fails vcf0 "S1"
           "plink" "plink2" "docker"
           (start_world_pipeline "S1" w_installed (pipeline_fs1 env_docker_fails w_installed))
           (snd (pipeline_stages_to_handoff env_docker_fails vcf0 "S1"
                   "plink" "plink2" "docker"
                   (start_world_pipeline "S1" w_installed
                      (pipeline_fs1 env_docker_fails w_installed))))).
  - vm_compute. reflexivity.
  - vm_compute. reflexivity.
Defined.

Lemma patch_step_agrees_witness :
  let E := env_idle in
  let dest := path_join (vcf_dir_of E "S1") "individual_conversion.py" in
  let patched :=
    str_replace (dq +:+ "HT.bim" +:+ dq) (dq +:+ bim_file_of E "S1" +:+ dq)
      conversion_script_line in
  PrsGui.patch_conversion_script E "S1" w_installed_no_output
  = PrsPipeline.patch_conversion_script E "S1" w_installed_no_output /\
  (fs_lookup dest (w_fs w_installed_no_output) <> Some Dir ->
   exists w',
     PrsPipeline.patch_conversion_script E "S1" w_installed_no_output = (Ok tt, w') /\
     fs_read dest (w_fs w') = Ok patched /\
     w_calls w' = w_calls w_installed_no_output).
Proof.
  apply (patch_step_agrees env_idle "S1" w_installed_no_output
           conversion_script_line false).
  reflexivity.
Defined.

Lemma safe_copy_all_or_nothing_witness :
  let src := local_geno_of env_idle "S1" in
  let dst := ancestry_geno env_idle in
  (Ok tt = Ok tt /\
   (exists c, fs_read src (w_fs w_installed) = Ok c /\
              fs_read dst (w_fs (snd (safe_copy src dst w_installed))) = Ok c) /\
   (forall p, p <> dst ->
      fs_lookup p (w_fs (snd (safe_copy src dst w_installed)))
      = fs_lookup p (w_fs w_installed)) /\
   w_out (snd (safe_copy src dst w_installed))
   = (w_out w_installed ++ ["Copied: " +:+ src +:+ " -> " +:+ dst])%list /\
   w_calls (snd (safe_copy src dst w_installed)) = w_calls w_installed)
  \/ (exists e, Ok tt = Raise e /\ snd (safe_copy src dst w_installed) = w_installed).
Proof.
  apply (safe_copy_all_or_nothing (local_geno_of env_idle "S1") (ancestry_geno env_idle)
           w_installed (Ok tt)).
  - vm_compute. reflexivity.
  - vm_compute. discriminate.
Defined.

End PipelineEffects.
